(** * Open Tab Agent: the command-to-action pipeline

A shallow embedding of the selector synthesizer, page observer and
action executor of the content script ([getSelector],
[extractPageContext], [executeAction], [executeActions]), of the reply
parser and prompt builders of [src/api/ai-client.ts] and of the command
handler of [src/sidepanel/sidepanel.ts], with the properties the
specification states about them.

JavaScript strings are modelled as [string]: a character stands for a
code unit below 256.  The browser (DOM queries, event dispatch, timers,
the message channel, the AI vendors) is outside the repository; it
enters as an interface whose operations may throw. *)

From Stdlib Require Import String Ascii List Bool Arith Lia NArith DecimalString.
Import ListNotations.
Open Scope string_scope.

Set Implicit Arguments.
Set Warnings "-register-all".

(** ** JavaScript values and strings *)

Module JS.

(** A thrown [Error]-like object. *)
Record Error := mkError { name : string; message : string }.

(** [String(error)], that is [Error.prototype.toString]. *)
Definition String_ (e : Error) : string :=
  if (name e =? "") then message e
  else if (message e =? "") then name e
  else name e ++ ": " ++ message e.

(** The outcome of evaluating an expression that may throw. *)
Inductive completion (A : Type) : Type :=
| Normal (a : A)
| Throw (e : Error).
Arguments Normal {A} a.
Arguments Throw {A} e.

Definition dquote : string := String "034"%char EmptyString.
Definition newline : string := String "010"%char EmptyString.

(** Truthiness of a value that is a string or [undefined]. *)
Definition truthy (o : option string) : bool :=
  match o with
  | Some s => negb (s =? "")
  | None => false
  end.

(** [s || undefined] *)
Definition or_undefined (s : string) : option string :=
  if (s =? "") then None else Some s.

(** WhiteSpace and LineTerminator code units below 256. *)
Definition isWhiteSpace (c : ascii) : bool :=
  let n := nat_of_ascii c in
  ((n =? 9) || (n =? 10) || (n =? 11) || (n =? 12) || (n =? 13)
   || (n =? 32) || (n =? 160))%nat.

Fixpoint trimStart (s : string) : string :=
  match s with
  | EmptyString => EmptyString
  | String c r => if isWhiteSpace c then trimStart r else s
  end.

Fixpoint trimEnd (s : string) : string :=
  match s with
  | EmptyString => EmptyString
  | String c r =>
      match trimEnd r with
      | EmptyString => if isWhiteSpace c then EmptyString else String c EmptyString
      | r' => String c r'
      end
  end.

Definition trim (s : string) : string := trimEnd (trimStart s).

Definition lowerChar (c : ascii) : ascii :=
  let n := nat_of_ascii c in
  if (((65 <=? n) && (n <=? 90))
      || ((192 <=? n) && (n <=? 222) && negb (n =? 215)))%nat
  then ascii_of_nat (n + 32) else c.

Fixpoint toLowerCase (s : string) : string :=
  match s with
  | EmptyString => EmptyString
  | String c r => String (lowerChar c) (toLowerCase r)
  end.

(** [xs.join(sep)] on an array of strings. *)
Fixpoint join (sep : string) (xs : list string) : string :=
  match xs with
  | [] => ""
  | [x] => x
  | x :: rest => x ++ sep ++ join sep rest
  end.

(** [s.split(/\s+/)]: the pieces between maximal runs of white space;
    the text before a leading run and after a trailing run is the empty
    string, as in JavaScript. *)
Fixpoint splitWS_aux (s : string) (cur : string) (inrun : bool) : list string :=
  match s with
  | EmptyString => [cur]
  | String c r =>
      if isWhiteSpace c
      then if inrun then splitWS_aux r cur true
           else cur :: splitWS_aux r "" true
      else splitWS_aux r (cur ++ String c "") false
  end.
Definition splitWS (s : string) : list string := splitWS_aux s "" false.

(** Decimal rendering of an array index or count. *)
Definition ofNat (n : nat) : string := NilEmpty.string_of_uint (Nat.to_uint n).

Definition ofBool (b : bool) : string := if b then "true" else "false".

(** [haystack.includes(needle)] *)
Fixpoint includes (haystack needle : string) : bool :=
  prefix needle haystack ||
  match haystack with
  | EmptyString => false
  | String _ r => includes r needle
  end.

End JS.
Import JS.

(** ** The data model of [src/types.ts] *)

(** [Action].  The declared [ActionType] is a union of three literals, but
    the values are decoded from the model's reply and [executeAction] has a
    branch for any other string, so [type] is a string here. *)
Module Action.
Record t := make {
  type : string;
  selector : string;
  value : option string;
  description : option string
}.
End Action.

Module ActionResult.
Record t := make {
  success : bool;
  action : Action.t;
  error : option string
}.
End ActionResult.

Module DOMElement.
Record t := make {
  selector : string;
  tag : string;
  type : option string;
  id : option string;
  className : option string;
  text : option string;
  placeholder : option string;
  name : option string;
  value : option string;
  checked : option bool;
  disabled : option bool
}.
End DOMElement.

Module PageContext.
Record t := make {
  url : string;
  title : string;
  elements : list DOMElement.t;
  screenshot : option string
}.
End PageContext.

(** ** The browser interface *)

(** The DOM interface an element implements, as far as [instanceof] tests
    of the content script can tell. *)
Inductive ElementInterface :=
| HTMLInputElement
| HTMLTextAreaElement
| HTMLButtonElement
| HTMLSelectElement
| HTMLOtherElement      (* any other HTMLElement *)
| NonHTMLElement.       (* an Element that is not an HTMLElement, e.g. SVG *)

Definition instanceofHTMLElement (i : ElementInterface) : bool :=
  match i with NonHTMLElement => false | _ => true end.

Record CSSStyleDeclaration := mkStyle {
  display : string;
  visibility : string;
  opacity : string
}.

(** What the content script reads of an element. *)
Module Element.
Record t := make {
  node : nat;                              (* identity of the DOM node *)
  iface : ElementInterface;
  tagName : string;
  id : string;
  className : option string;               (* None: not a string *)
  attributes : list (string * string);     (* getAttribute *)
  textContent : option string;
  type : string;
  name : string;
  placeholder : string;
  value : string;
  checked : bool;
  disabled : bool;
  computedStyle : CSSStyleDeclaration;     (* window.getComputedStyle *)
  parentChildren : option (list (nat * string))
    (* parentElement?.children as (node, tagName) *)
}.

Definition getAttribute (el : t) (a : string) : option string :=
  match find (fun kv => fst kv =? a) (attributes el) with
  | Some kv => Some (snd kv)
  | None => None
  end.
End Element.

(** The live page.  [querySelectorAll] throws on a selector it cannot
    parse; event dispatch and property writes run page code and change the
    page; the page may also change while the script sleeps. *)
Class Browser (Page : Type) := {
  querySelectorAll : string -> Page -> completion (list Element.t);
  click : Element.t -> Page -> completion unit * Page;
  set_value : Element.t -> string -> Page -> completion unit * Page;
  dispatchEvent : Element.t -> string -> Page -> completion unit * Page;
  setTimeout : nat -> Page -> Page;
  location_href : Page -> string;
  document_title : Page -> string
}.

(** [document.querySelector]: the first match of [querySelectorAll]. *)
Definition querySelector {Page} `{Browser Page} (sel : string) (p : Page)
  : completion (option Element.t) :=
  match querySelectorAll sel p with
  | Normal l => Normal (hd_error l)
  | Throw e => Throw e
  end.
Arguments querySelector : simpl never.

(** Sequencing of computations that may throw. *)
Definition cbind {A B} (c : completion A) (k : A -> completion B) : completion B :=
  match c with
  | Normal a => k a
  | Throw e => Throw e
  end.

Notation "x <-- c ;; k" := (cbind c (fun x => k))
  (at level 61, c at next level, right associativity).

(** Steps of a script: they change a state [S] and may throw. *)
Definition Eff (S A : Type) : Type := S -> completion A * S.

Definition ret {S A} (a : A) : Eff S A := fun w => (Normal a, w).

Definition throw {S A} (e : Error) : Eff S A := fun w => (Throw e, w).

Definition bind {S A B} (m : Eff S A) (k : A -> Eff S B) : Eff S B :=
  fun w =>
    match m w with
    | (Normal a, w') => k a w'
    | (Throw e, w') => (Throw e, w')
    end.

(** [try { m } catch (error) { handler(error) }] *)
Definition try_catch {S A} (m : Eff S A) (handler : Error -> Eff S A) : Eff S A :=
  fun w =>
    match m w with
    | (Normal a, w') => (Normal a, w')
    | (Throw e, w') => handler e w'
    end.

(** [try { m } finally { cleanup }], for a [cleanup] that does not throw. *)
Definition try_finally {S A} (m : Eff S A) (cleanup : S -> S) : Eff S A :=
  fun w => let '(c, w') := m w in (c, cleanup w').

Definition modify {S} (f : S -> S) : Eff S unit := fun w => (Normal tt, f w).

Declare Scope eff_scope.
Delimit Scope eff_scope with eff.
Notation "x <~ m ;; k" := (bind m (fun x => k))
  (at level 61, m at next level, right associativity) : eff_scope.
Notation "m ;;; k" := (bind m (fun _ => k))
  (at level 61, right associativity) : eff_scope.

(** ** The content script *)

Module Content.
Section WithBrowser.

Context {Page : Type} `{Browser Page}.

(** *** Selector synthesis *)

(** [siblings.indexOf(element)], by node identity. *)
Fixpoint indexOf (siblings : list (nat * string)) (n : nat) : option nat :=
  match siblings with
  | [] => None
  | s :: rest =>
      if (fst s =? n)%nat then Some 0
      else option_map S (indexOf rest n)
  end.

(** The class rule: [Some selector] when the rule returns it, [None] when
    control falls through to the next rule. *)
Definition classSelector (element : Element.t) (p : Page)
  : completion (option string) :=
  match Element.className element with
  | Some className =>
      if (className =? "") then Normal None
      else
        let classes :=
          filter (fun c => negb (c =? "")) (splitWS (trim className)) in
        if (0 <? length classes)%nat then
          let selector :=
            toLowerCase (Element.tagName element) ++ "." ++ join "." classes in
          found <-- querySelectorAll selector p ;;
          if (length found =? 1)%nat then Normal (Some selector)
          else Normal None
        else Normal None
  | None => Normal None
  end.

Definition placeholderSelector (element : Element.t) (p : Page)
  : completion (option string) :=
  let placeholder := Element.getAttribute element "placeholder" in
  match placeholder with
  | Some ph =>
      if (ph =? "") then Normal None
      else
        let selector :=
          toLowerCase (Element.tagName element)
          ++ "[placeholder=" ++ dquote ++ ph ++ dquote ++ "]" in
        found <-- querySelectorAll selector p ;;
        if (length found =? 1)%nat then Normal (Some selector)
        else Normal None
  | None => Normal None
  end.

(** The fallback; [index + 1] is 0 when [indexOf] answers -1. *)
Definition nthOfTypeSelector (element : Element.t) : string :=
  let tag := toLowerCase (Element.tagName element) in
  let siblings :=
    filter (fun el => snd el =? Element.tagName element)
           (match Element.parentChildren element with
            | Some children => children
            | None => []
            end) in
  let ordinal :=
    match indexOf siblings (Element.node element) with
    | Some index => index + 1
    | None => 0
    end in
  tag ++ ":nth-of-type(" ++ ofNat ordinal ++ ")".

Definition getSelector (element : Element.t) (p : Page) : completion string :=
  if negb (Element.id element =? "") then
    Normal ("#" ++ Element.id element)
  else
    match Element.getAttribute element "name" with
    | Some (String _ _ as name) =>
        Normal ("[name=" ++ dquote ++ name ++ dquote ++ "]")
    | _ =>
        byClass <-- classSelector element p ;;
        match byClass with
        | Some selector => Normal selector
        | None =>
            byPlaceholder <-- placeholderSelector element p ;;
            match byPlaceholder with
            | Some selector => Normal selector
            | None => Normal (nthOfTypeSelector element)
            end
        end
    end.

(** *** Page observation *)

Definition interactiveSelectors : list string :=
  [ "input:not([type=" ++ dquote ++ "hidden" ++ dquote ++ "])";
    "textarea";
    "button";
    "select";
    "a[href]";
    "[role=" ++ dquote ++ "button" ++ dquote ++ "]";
    "[onclick]";
    "[contenteditable=" ++ dquote ++ "true" ++ dquote ++ "]" ].

(** The test that makes the [forEach] callback skip an element. *)
Definition invisible (style : CSSStyleDeclaration) : bool :=
  (display style =? "none") || (visibility style =? "hidden")
  || (opacity style =? "0").

(** The descriptor pushed for a retained element. *)
Definition describe (el : Element.t) (selector : string) : DOMElement.t :=
  let tag := toLowerCase (Element.tagName el) in
  let id := or_undefined (Element.id el) in
  let className :=
    match Element.className el with
    | Some c => or_undefined c
    | None => None
    end in
  let text :=
    match Element.textContent el with
    | Some t => or_undefined (substring 0 100 (trim t))
    | None => None
    end in
  match Element.iface el with
  | HTMLInputElement =>
      DOMElement.make selector tag (Some (Element.type el)) id className text
        (or_undefined (Element.placeholder el))
        (or_undefined (Element.name el))
        (or_undefined (Element.value el))
        (Some (Element.checked el))
        (Some (Element.disabled el))
  | HTMLTextAreaElement =>
      DOMElement.make selector tag None id className text
        (or_undefined (Element.placeholder el))
        (or_undefined (Element.name el))
        (or_undefined (Element.value el))
        None
        (Some (Element.disabled el))
  | HTMLButtonElement | HTMLSelectElement =>
      DOMElement.make selector tag None id className text
        None
        (or_undefined (Element.name el))
        None
        None
        (Some (Element.disabled el))
  | _ =>
      DOMElement.make selector tag None id className text
        None None None None None
  end.

(** The retained elements: those the callback does not return early on. *)
Definition retained (el : Element.t) : bool :=
  instanceofHTMLElement (Element.iface el)
  && negb (invisible (Element.computedStyle el)).

(** [foundElements.forEach(...)], pushing onto [elements]. *)
Fixpoint forEach (foundElements : list Element.t) (elements : list DOMElement.t)
         (p : Page) : completion (list DOMElement.t) :=
  match foundElements with
  | [] => Normal elements
  | el :: rest =>
      if negb (instanceofHTMLElement (Element.iface el)) then
        forEach rest elements p
      else if invisible (Element.computedStyle el) then
        forEach rest elements p
      else
        selector <-- getSelector el p ;;
        forEach rest (elements ++ [describe el selector]) p
  end.

(** The descriptor [d] is what the callback pushes for element [el]. *)
Definition described (p : Page) (el : Element.t) (d : DOMElement.t) : Prop :=
  exists selector, getSelector el p = Normal selector /\ d = describe el selector.

Definition extractPageContext (p : Page) : completion PageContext.t :=
  foundElements <-- querySelectorAll (join "," interactiveSelectors) p ;;
  elements <-- forEach foundElements [] p ;;
  Normal (PageContext.make (location_href p) (document_title p)
                           (firstn 100 elements) None).

(** *** Action execution *)

Inductive ConsoleEntry :=
| Executing (action : Action.t).      (* console.log('Executing action:', action) *)

(** The page together with what the script has logged. *)
Record World := mkWorld {
  page : Page;
  console : list ConsoleEntry
}.

Definition Exec (A : Type) : Type := Eff World A.

Definition console_log (entry : ConsoleEntry) : Exec unit :=
  fun w => (Normal tt, mkWorld (page w) (console w ++ [entry])).

(** A read of the page. *)
Definition query {A} (f : Page -> completion A) : Exec A :=
  fun w => (f (page w), w).

(** An operation that runs page code. *)
Definition act (f : Page -> completion unit * Page) : Exec unit :=
  fun w => let '(c, p') := f (page w) in (c, mkWorld p' (console w)).

(** [await new Promise(resolve => setTimeout(resolve, ms))] *)
Definition sleep (ms : nat) : Exec unit :=
  fun w => (Normal tt, mkWorld (setTimeout ms (page w)) (console w)).

Local Open Scope eff_scope.

Definition succeeded (action : Action.t) : ActionResult.t :=
  ActionResult.make true action None.

Definition failed (action : Action.t) (error : string) : ActionResult.t :=
  ActionResult.make false action (Some error).

Definition executeAction (action : Action.t) : Exec ActionResult.t :=
  console_log (Executing action) ;;;
  try_catch
    (if (Action.type action =? "wait") then
       sleep 1000 ;;;
       ret (succeeded action)
     else
       element <~ query (querySelector (Action.selector action)) ;;
       match element with
       | None =>
           ret (failed action ("Element not found: " ++ Action.selector action))
       | Some element =>
           if negb (instanceofHTMLElement (Element.iface element)) then
             ret (failed action
                    ("Element is not an HTMLElement: " ++ Action.selector action))
           else if (Action.type action =? "click") then
             act (click element) ;;;
             ret (succeeded action)
           else if (Action.type action =? "fill") then
             match Element.iface element with
             | HTMLInputElement | HTMLTextAreaElement =>
                 act (set_value element
                        (match Action.value action with
                         | Some v => v
                         | None => ""
                         end)) ;;;
                 act (dispatchEvent element "input") ;;;
                 act (dispatchEvent element "change") ;;;
                 ret (succeeded action)
             | _ =>
                 ret (failed action
                        ("Element is not an input or textarea: "
                         ++ Action.selector action))
             end
           else
             ret (failed action ("Unknown action type: " ++ Action.type action))
       end)
    (fun error => ret (failed action (String_ error))).

(** The [for (const action of actions)] loop over the remaining actions,
    with the [results] array pushed so far. *)
Fixpoint for_of (actions : list Action.t) (results : list ActionResult.t)
  : Exec (list ActionResult.t) :=
  match actions with
  | [] => ret results
  | action :: rest =>
      result <~ executeAction action ;;
      let results := (results ++ [result])%list in
      if negb (ActionResult.success result) then
        ret results                                   (* break *)
      else
        sleep 500 ;;;
        for_of rest results
  end.

Definition executeActions (actions : list Action.t) : Exec (list ActionResult.t) :=
  for_of actions [].

End WithBrowser.

(** The shape of a result list against the action list it was run on:
    one successful result per action up to the first failure, which is
    the last result. *)
Inductive StopsAtFirstFailure : list Action.t -> list ActionResult.t -> Prop :=
| stops_nil : StopsAtFirstFailure [] []
| stops_failure action rest result :
    ActionResult.action result = action ->
    ActionResult.success result = false ->
    StopsAtFirstFailure (action :: rest) [result]
| stops_success action rest result results :
    ActionResult.action result = action ->
    ActionResult.success result = true ->
    StopsAtFirstFailure rest results ->
    StopsAtFirstFailure (action :: rest) (result :: results).

(** The error text of a result mentions the type of its action. *)
Definition namesType (result : ActionResult.t) : Prop :=
  exists e, ActionResult.error result = Some e
            /\ includes e (Action.type (ActionResult.action result)) = true.

End Content.

(** ** JSON values and a reference decoder *)

Module JSON.

(** A decoded JSON value.  Numbers keep their literal; object members
    keep the order of the text. *)
Inductive value :=
| Null
| Bool (b : bool)
| Number (literal : string)
| Str (s : string)
| Array (items : list value)
| Object (members : list (string * value)).

(** [o[key]]: the last member of that name, [None] for [undefined]. *)
Definition get (key : string) (v : value) : option value :=
  match v with
  | Object members =>
      match find (fun kv => fst kv =? key) (rev members) with
      | Some kv => Some (snd kv)
      | None => None
      end
  | _ => None
  end.

Inductive token :=
| LBracket | RBracket | LBrace | RBrace | Comma | Colon
| Atom (v : value).

Definition syntaxError : Error := mkError "SyntaxError" "Unexpected token in JSON".

(** *** Lexer: one character at a time *)

Inductive lexState :=
| LDefault
| LString (acc : string)
| LEscape (acc : string)
| LUnicode (acc : string) (digits : list nat)
| LNumber (acc : string)
| LWord (acc : string).

Definition isDigit (c : ascii) : bool :=
  let n := nat_of_ascii c in ((48 <=? n) && (n <=? 57))%nat.

Definition isLetter (c : ascii) : bool :=
  let n := nat_of_ascii c in ((97 <=? n) && (n <=? 122))%nat.

Definition hexDigit (c : ascii) : option nat :=
  let n := nat_of_ascii c in
  if ((48 <=? n) && (n <=? 57))%nat then Some (n - 48)
  else if ((65 <=? n) && (n <=? 70))%nat then Some (n - 55)
  else if ((97 <=? n) && (n <=? 102))%nat then Some (n - 87)
  else None.

Fixpoint allDigits (s : string) : bool :=
  match s with
  | EmptyString => true
  | String c r => isDigit c && allDigits r
  end.

Fixpoint takeDigits (s : string) : string * string :=
  match s with
  | String c r =>
      if isDigit c then let '(d, rest) := takeDigits r in (String c d, rest)
      else (EmptyString, s)
  | EmptyString => (EmptyString, EmptyString)
  end.

(** The number grammar: [-? int frac? exp?]. *)
Definition validExponent (s : string) : bool :=
  match s with
  | EmptyString => true
  | String c r =>
      if (nat_of_ascii c =? 101)%nat || (nat_of_ascii c =? 69)%nat then
        let r' := match r with
                  | String s' r'' =>
                      if (nat_of_ascii s' =? 43)%nat || (nat_of_ascii s' =? 45)%nat
                      then r'' else r
                  | EmptyString => r
                  end in
        negb (r' =? "") && allDigits r'
      else false
  end.

Definition validFraction (s : string) : bool :=
  match s with
  | String "." r =>
      let '(d, rest) := takeDigits r in
      negb (d =? "") && validExponent rest
  | _ => validExponent s
  end.

Definition validNumber (s : string) : bool :=
  let body := match s with String "-" r => r | _ => s end in
  match body with
  | String "0" r => validFraction r
  | String c r =>
      isDigit c && (let '(_, rest) := takeDigits r in validFraction rest)
  | EmptyString => false
  end.

Definition isNumberChar (c : ascii) : bool :=
  isDigit c ||
  let n := nat_of_ascii c in
  ((n =? 43) || (n =? 45) || (n =? 46) || (n =? 69) || (n =? 101))%nat.

Definition isJSONSpace (c : ascii) : bool :=
  let n := nat_of_ascii c in
  ((n =? 32) || (n =? 9) || (n =? 10) || (n =? 13))%nat.

Definition snoc (s : string) (c : ascii) : string := s ++ String c EmptyString.

Definition punctuation (c : ascii) : option token :=
  if Ascii.eqb c "[" then Some LBracket
  else if Ascii.eqb c "]" then Some RBracket
  else if Ascii.eqb c "{" then Some LBrace
  else if Ascii.eqb c "}" then Some RBrace
  else if Ascii.eqb c "," then Some Comma
  else if Ascii.eqb c ":" then Some Colon
  else None.

(** A character met between tokens. *)
Definition lexDefault (c : ascii) (toks : list token)
  : option (lexState * list token) :=
  if isJSONSpace c then Some (LDefault, toks)
  else if isDigit c || (nat_of_ascii c =? 45)%nat then
    Some (LNumber (String c EmptyString), toks)
  else if isLetter c then Some (LWord (String c EmptyString), toks)
  else if (nat_of_ascii c =? 34)%nat then Some (LString EmptyString, toks)
  else
    match punctuation c with
    | Some t => Some (LDefault, (toks ++ [t])%list)
    | None => None
    end.

Definition wordToken (w : string) : option token :=
  if (w =? "true") then Some (Atom (Bool true))
  else if (w =? "false") then Some (Atom (Bool false))
  else if (w =? "null") then Some (Atom Null)
  else None.

Definition escapeChar (c : ascii) : option ascii :=
  if Ascii.eqb c "034" then Some "034"%char
  else if Ascii.eqb c "\" then Some "\"%char
  else if Ascii.eqb c "/" then Some "/"%char
  else if Ascii.eqb c "b" then Some "008"%char
  else if Ascii.eqb c "f" then Some "012"%char
  else if Ascii.eqb c "n" then Some "010"%char
  else if Ascii.eqb c "r" then Some "013"%char
  else if Ascii.eqb c "t" then Some "009"%char
  else None.

(** The code unit of four hexadecimal digits; code units outside the
    alphabet of this development (256 and above) have no character and
    the reference decoder rejects the text. *)
Definition codeUnit (digits : list nat) : option ascii :=
  let n := fold_left (fun acc d => 16 * acc + d) digits 0 in
  if (n <? 256)%nat then Some (ascii_of_nat n) else None.

Definition lexStep (st : lexState) (c : ascii) (toks : list token)
  : option (lexState * list token) :=
  match st with
  | LDefault => lexDefault c toks
  | LString acc =>
      if (nat_of_ascii c =? 34)%nat then Some (LDefault, (toks ++ [Atom (Str acc)])%list)
      else if (nat_of_ascii c =? 92)%nat then Some (LEscape acc, toks)
      else if (nat_of_ascii c <? 32)%nat then None
      else Some (LString (snoc acc c), toks)
  | LEscape acc =>
      if (nat_of_ascii c =? 117)%nat then Some (LUnicode acc [], toks)
      else match escapeChar c with
           | Some e => Some (LString (snoc acc e), toks)
           | None => None
           end
  | LUnicode acc digits =>
      match hexDigit c with
      | Some d =>
          let digits := (digits ++ [d])%list in
          if (length digits =? 4)%nat then
            match codeUnit digits with
            | Some u => Some (LString (snoc acc u), toks)
            | None => None
            end
          else Some (LUnicode acc digits, toks)
      | None => None
      end
  | LNumber acc =>
      if isNumberChar c then Some (LNumber (snoc acc c), toks)
      else if validNumber acc then lexDefault c (toks ++ [Atom (Number acc)])%list
      else None
  | LWord acc =>
      if isLetter c then Some (LWord (snoc acc c), toks)
      else match wordToken acc with
           | Some t => lexDefault c (toks ++ [t])%list
           | None => None
           end
  end.

Definition lexEnd (st : lexState) (toks : list token) : option (list token) :=
  match st with
  | LDefault => Some toks
  | LNumber acc => if validNumber acc then Some (toks ++ [Atom (Number acc)])%list else None
  | LWord acc =>
      match wordToken acc with
      | Some t => Some (toks ++ [t])%list
      | None => None
      end
  | _ => None
  end.

Fixpoint lex (s : string) (st : lexState) (toks : list token)
  : option (list token) :=
  match s with
  | EmptyString => lexEnd st toks
  | String c r =>
      match lexStep st c toks with
      | Some (st', toks') => lex r st' toks'
      | None => None
      end
  end.

(** *** Parser: a stack automaton over the tokens *)

Inductive frame :=
| FArray (items : list value)                         (* items so far, reversed *)
| FObject (members : list (string * value))           (* members so far, reversed *)
| FMember (members : list (string * value)) (key : string).  (* awaiting the value of [key] *)

Inductive mode :=
| ExpectValue
| ExpectValueOrEnd       (* just after an opening bracket *)
| ExpectKeyOrEnd         (* just after an opening brace *)
| ExpectKey
| ExpectColon (key : string)
| AfterValue
| Done (v : value).

(** A completed value goes to the enclosing container. *)
Definition pushValue (v : value) (stack : list frame) : option (list frame * mode) :=
  match stack with
  | [] => Some ([], Done v)
  | FArray items :: st => Some (FArray (v :: items) :: st, AfterValue)
  | FMember members key :: st => Some (FObject ((key, v) :: members) :: st, AfterValue)
  | FObject _ :: _ => None
  end.

Definition startValue (t : token) (stack : list frame) : option (list frame * mode) :=
  match t with
  | Atom v => pushValue v stack
  | LBracket => Some (FArray [] :: stack, ExpectValueOrEnd)
  | LBrace => Some (FObject [] :: stack, ExpectKeyOrEnd)
  | _ => None
  end.

Definition closeTop (t : token) (stack : list frame) : option (list frame * mode) :=
  match t, stack with
  | RBracket, FArray items :: st => pushValue (Array (rev items)) st
  | RBrace, FObject members :: st => pushValue (Object (rev members)) st
  | _, _ => None
  end.

Definition parseStep (t : token) (stack : list frame) (m : mode)
  : option (list frame * mode) :=
  match m with
  | ExpectValue => startValue t stack
  | ExpectValueOrEnd =>
      match t with
      | RBracket => closeTop t stack
      | _ => startValue t stack
      end
  | ExpectKeyOrEnd =>
      match t with
      | RBrace => closeTop t stack
      | Atom (Str key) => Some (stack, ExpectColon key)
      | _ => None
      end
  | ExpectKey =>
      match t with
      | Atom (Str key) => Some (stack, ExpectColon key)
      | _ => None
      end
  | ExpectColon key =>
      match t, stack with
      | Colon, FObject members :: st => Some (FMember members key :: st, ExpectValue)
      | _, _ => None
      end
  | AfterValue =>
      match t, stack with
      | Comma, FArray _ :: _ => Some (stack, ExpectValue)
      | Comma, FObject _ :: _ => Some (stack, ExpectKey)
      | RBracket, _ => closeTop t stack
      | RBrace, _ => closeTop t stack
      | _, _ => None
      end
  | Done _ => None
  end.

Fixpoint parseTokens (toks : list token) (stack : list frame) (m : mode)
  : option value :=
  match toks with
  | [] => match m with Done v => Some v | _ => None end
  | t :: rest =>
      match parseStep t stack m with
      | Some (stack', m') => parseTokens rest stack' m'
      | None => None
      end
  end.

(** The reference decoder: the result of [JSON.parse] on texts over the
    alphabet of this development. *)
Definition parse (text : string) : completion value :=
  match lex text LDefault [] with
  | Some toks =>
      match parseTokens toks [] ExpectValue with
      | Some v => Normal v
      | None => Throw syntaxError
      end
  | None => Throw syntaxError
  end.

(** Quoting helper for writing JSON texts. *)
Definition q (s : string) : string := dquote ++ s ++ dquote.

End JSON.

(** ** The AI gateway: [src/api/ai-client.ts] *)

(** [JSON.parse] belongs to the runtime: the clients are written against
    any decoder, and [JSON.parse] above is the one used for examples. *)
Class JSONRuntime := {
  JSON_parse : string -> completion JSON.value
}.

Definition referenceRuntime : JSONRuntime := {| JSON_parse := JSON.parse |}.

(** The regular expression [/\[[\s\S]*\]/] of [extractActions]. *)
Module Regex.

(** [[\s\S]*\]] matched greedily against [s]: the longest prefix of [s]
    that ends with a closing bracket. *)
Fixpoint restOfSpan (s : string) : option string :=
  match s with
  | EmptyString => None
  | String c r =>
      match restOfSpan r with
      | Some m => Some (String c m)
      | None => if Ascii.eqb c "]" then Some (String c EmptyString) else None
      end
  end.

(** The pattern anchored at the start of [s]. *)
Definition matchHere (s : string) : option string :=
  match s with
  | String c r =>
      if Ascii.eqb c "[" then option_map (String c) (restOfSpan r) else None
  | EmptyString => None
  end.

(** [s.match(re)]: the match at the leftmost position that has one;
    [None] for [null], otherwise element 0 of the result. *)
Fixpoint match_ (s : string) : option string :=
  match matchHere s with
  | Some m => Some m
  | None =>
      match s with
      | EmptyString => None
      | String _ r => match_ r
      end
  end.

End Regex.

(** What a vendor call answers, as far as the clients look at it. *)
Inductive ContentBlock :=
| TextBlock (text : string)        (* content.type === 'text' *)
| OtherBlock (type : string).

(** The vendors: one request per call, given the optional screenshot and
    the user prompt (the system prompt and model settings are constants);
    a transport fault is a thrown error. *)
Class Vendors := {
  anthropic_messages_create : option string -> string -> completion ContentBlock;
      (* message.content[0] *)
  openai_chat_completions_create : option string -> string -> completion (option string)
      (* response.choices[0]?.message?.content *)
}.

(** [parts.filter(Boolean)] on parts that are a string or a falsy value. *)
Definition filterBoolean (parts : list (option string)) : list string :=
  flat_map (fun part => if truthy part then
                          match part with Some s => [s] | None => [] end
                        else []) parts.

(** [elements.map((el, idx) => f(el, idx))] *)
Fixpoint mapi_from {A B} (idx : nat) (f : A -> nat -> B) (xs : list A) : list B :=
  match xs with
  | [] => []
  | x :: rest => f x idx :: mapi_from (S idx) f rest
  end.
Definition mapi {A B} (f : A -> nat -> B) (xs : list A) : list B := mapi_from 0 f xs.

(** [cond && text] for an optional string [cond]. *)
Definition andThen (cond : option string) (text : string -> string) : option string :=
  match cond with
  | Some s => if truthy cond then Some (text s) else None
  | None => None
  end.

Module ClaudeClient.
Section Client.
  Context `{JSONRuntime} `{Vendors}.

Definition formatElements (elements : list DOMElement.t) : string :=
  join newline
    (mapi (fun el idx =>
             let parts := filterBoolean
               [ Some ("[" ++ ofNat idx ++ "]");
                 Some ("Tag: " ++ DOMElement.tag el);
                 andThen (DOMElement.type el) (fun v => "Type: " ++ v);
                 andThen (Some (DOMElement.selector el)) (fun v => "Selector: " ++ v);
                 andThen (DOMElement.id el) (fun v => "ID: " ++ v);
                 andThen (DOMElement.className el) (fun v => "Class: " ++ v);
                 andThen (DOMElement.text el) (fun v => "Text: " ++ dquote ++ v ++ dquote);
                 andThen (DOMElement.placeholder el)
                         (fun v => "Placeholder: " ++ dquote ++ v ++ dquote);
                 andThen (DOMElement.name el) (fun v => "Name: " ++ v);
                 andThen (DOMElement.value el) (fun v => "Value: " ++ dquote ++ v ++ dquote);
                 match DOMElement.checked el with
                 | Some b => Some ("Checked: " ++ ofBool b)
                 | None => None
                 end;
                 match DOMElement.disabled el with
                 | Some true => Some ("Disabled: " ++ ofBool true)
                 | _ => None
                 end ] in
             join " | " parts)
          elements).

Definition buildUserPrompt (url title elementsText userCommand : string) : string :=
  "Page URL: " ++ url ++ newline ++
  "Page Title: " ++ title ++ newline ++
  newline ++
  "Interactive Elements:" ++ newline ++
  elementsText ++ newline ++
  newline ++
  "User Command: " ++ userCommand ++ newline ++
  newline ++
  "Please analyze the page and provide actions to complete this task.".

Definition extractActions (text : string) : completion JSON.value :=
  let trimmed := trim text in
  let jsonMatch := Regex.match_ trimmed in
  match jsonMatch with
  | None => Throw (mkError "Error" "Could not find JSON array in response")
  | Some m => JSON_parse m
  end.

(** The [catch] clause logs and rethrows, so it is the identity here. *)
Definition analyzePageAndGetActions (context : PageContext.t) (userCommand : string)
  : completion JSON.value :=
  let elementsText := formatElements (PageContext.elements context) in
  let userPrompt :=
    buildUserPrompt (PageContext.url context) (PageContext.title context)
                    elementsText userCommand in
  content <-- anthropic_messages_create (PageContext.screenshot context) userPrompt ;;
  match content with
  | TextBlock text => extractActions text
  | OtherBlock _ => Throw (mkError "Error" "Unexpected response type from Claude")
  end.

End Client.
End ClaudeClient.

Module OpenAIClient.
Section Client.
  Context `{JSONRuntime} `{Vendors}.

Definition formatElements (elements : list DOMElement.t) : string :=
  join newline
    (mapi (fun el idx =>
             let parts := filterBoolean
               [ Some ("[" ++ ofNat idx ++ "]");
                 Some ("Tag: " ++ DOMElement.tag el);
                 andThen (DOMElement.type el) (fun v => "Type: " ++ v);
                 andThen (Some (DOMElement.selector el)) (fun v => "Selector: " ++ v);
                 andThen (DOMElement.id el) (fun v => "ID: " ++ v);
                 andThen (DOMElement.className el) (fun v => "Class: " ++ v);
                 andThen (DOMElement.text el) (fun v => "Text: " ++ dquote ++ v ++ dquote);
                 andThen (DOMElement.placeholder el)
                         (fun v => "Placeholder: " ++ dquote ++ v ++ dquote);
                 andThen (DOMElement.name el) (fun v => "Name: " ++ v);
                 andThen (DOMElement.value el) (fun v => "Value: " ++ dquote ++ v ++ dquote);
                 match DOMElement.checked el with
                 | Some b => Some ("Checked: " ++ ofBool b)
                 | None => None
                 end;
                 match DOMElement.disabled el with
                 | Some true => Some ("Disabled: " ++ ofBool true)
                 | _ => None
                 end ] in
             join " | " parts)
          elements).

Definition buildUserPrompt (url title elementsText userCommand : string) : string :=
  "Page URL: " ++ url ++ newline ++
  "Page Title: " ++ title ++ newline ++
  newline ++
  "Interactive Elements:" ++ newline ++
  elementsText ++ newline ++
  newline ++
  "User Command: " ++ userCommand ++ newline ++
  newline ++
  "Please analyze the page and provide actions to complete this task.".

Definition extractActions (text : string) : completion JSON.value :=
  let trimmed := trim text in
  let jsonMatch := Regex.match_ trimmed in
  match jsonMatch with
  | None => Throw (mkError "Error" "Could not find JSON array in response")
  | Some m => JSON_parse m
  end.

(** [!content] holds for a missing and for an empty reply. *)
Definition analyzePageAndGetActions (context : PageContext.t) (userCommand : string)
  : completion JSON.value :=
  let elementsText := formatElements (PageContext.elements context) in
  let userPrompt :=
    buildUserPrompt (PageContext.url context) (PageContext.title context)
                    elementsText userCommand in
  content <-- openai_chat_completions_create (PageContext.screenshot context) userPrompt ;;
  if truthy content then
    match content with
    | Some text => extractActions text
    | None => Throw (mkError "Error" "No response from OpenAI")
    end
  else Throw (mkError "Error" "No response from OpenAI").

End Client.
End OpenAIClient.

(** ** The orchestrator: [src/sidepanel/sidepanel.ts] *)

Module Sidepanel.

Inductive MessageType :=
| PING | GET_PAGE_CONTEXT | EXECUTE_ACTIONS | ACTION_RESULT | CAPTURE_SCREENSHOT.

Record Message := mkMessage {
  msg_type : MessageType;
  msg_data : option (list Action.t)
}.

(** The response object of the relay, with the properties the panel reads. *)
Record Response := mkResponse {
  resp_success : bool;
  resp_error : option string;
  resp_context : option PageContext.t;
  resp_screenshot : option string;
  resp_results : option (list ActionResult.t)
}.

Inductive Role := user | assistant | system | error.

Record ChatMessage := mkChat {
  role : Role;
  content : string;
  timestamp : nat
}.

Inductive AIProvider := claude | openai.

(** The [AIClient] interface. *)
Definition AIClient : Type := PageContext.t -> string -> completion (list Action.t).

(** The extension around the panel: the answer of the relay to each
    request, and the clock. *)
Class Extension := {
  runtime_sendMessage : Message -> completion Response;
  Date_now : nat -> nat          (* the value of the n-th reading *)
}.

(** The module-level variables and the part of the panel's document the
    handler touches, with the requests sent so far. *)
Record Panel := mkPanel {
  aiClient : option AIClient;
  currentProvider : AIProvider;
  chatHistory : list ChatMessage;
  commandInput_value : string;
  sendBtn_disabled : bool;
  statusText : string;
  statusBar_hidden : bool;
  chatMessages : list (Role * string);      (* the message elements appended *)
  stored_history : option (list ChatMessage);
  sent : list Message;                      (* chrome.runtime.sendMessage calls *)
  clockReads : nat
}.

Definition set_commandInput_value (v : string) (s : Panel) : Panel :=
  mkPanel (aiClient s) (currentProvider s) (chatHistory s) v (sendBtn_disabled s)
          (statusText s) (statusBar_hidden s) (chatMessages s) (stored_history s)
          (sent s) (clockReads s).

Definition set_sendBtn_disabled (b : bool) (s : Panel) : Panel :=
  mkPanel (aiClient s) (currentProvider s) (chatHistory s) (commandInput_value s) b
          (statusText s) (statusBar_hidden s) (chatMessages s) (stored_history s)
          (sent s) (clockReads s).

Definition showStatus (message : string) (s : Panel) : Panel :=
  mkPanel (aiClient s) (currentProvider s) (chatHistory s) (commandInput_value s)
          (sendBtn_disabled s) message false (chatMessages s) (stored_history s)
          (sent s) (clockReads s).

Definition hideStatus (s : Panel) : Panel :=
  mkPanel (aiClient s) (currentProvider s) (chatHistory s) (commandInput_value s)
          (sendBtn_disabled s) (statusText s) true (chatMessages s) (stored_history s)
          (sent s) (clockReads s).

Definition addMessage (r : Role) (content : string) (s : Panel) : Panel :=
  mkPanel (aiClient s) (currentProvider s) (chatHistory s) (commandInput_value s)
          (sendBtn_disabled s) (statusText s) (statusBar_hidden s)
          (chatMessages s ++ [(r, content)]) (stored_history s)
          (sent s) (clockReads s).

Definition addErrorMessage (content : string) : Panel -> Panel :=
  addMessage error content.

(** [if (screenshot) { context.screenshot = screenshot; }] *)
Definition withScreenshot (context : PageContext.t) (screenshot : option string)
  : PageContext.t :=
  if truthy screenshot then
    PageContext.make (PageContext.url context) (PageContext.title context)
                     (PageContext.elements context) screenshot
  else context.

Section WithExtension.
  Context `{Extension}.
  Local Open Scope eff_scope.

(** [chatHistory.push({ role, content, timestamp: Date.now() })] *)
Definition pushHistory (r : Role) (content : string) (s : Panel) : Panel :=
  mkPanel (aiClient s) (currentProvider s)
          (chatHistory s ++ [mkChat r content (Date_now (clockReads s))])
          (commandInput_value s) (sendBtn_disabled s) (statusText s)
          (statusBar_hidden s) (chatMessages s) (stored_history s)
          (sent s) (S (clockReads s)).

(** [await chrome.runtime.sendMessage(message)] *)
Definition sendMessage (message : Message) : Eff Panel Response :=
  fun s =>
    (runtime_sendMessage message,
     mkPanel (aiClient s) (currentProvider s) (chatHistory s)
             (commandInput_value s) (sendBtn_disabled s) (statusText s)
             (statusBar_hidden s) (chatMessages s) (stored_history s)
             (sent s ++ [message]) (clockReads s)).

(** [response.error || fallback] *)
Definition errorOr (response : Response) (fallback : string) : string :=
  match resp_error response with
  | Some e => if (e =? "") then fallback else e
  | None => fallback
  end.

(** What [captureScreenshot] returns, given the answer of the relay. *)
Definition capturedScreenshot : option string :=
  match runtime_sendMessage (mkMessage CAPTURE_SCREENSHOT None) with
  | Normal response =>
      if resp_success response then resp_screenshot response else None
  | Throw _ => None
  end.

Definition getPageContext : Eff Panel (option PageContext.t) :=
  try_catch
    (response <~ sendMessage (mkMessage GET_PAGE_CONTEXT None) ;;
     if negb (resp_success response) then
       throw (mkError "Error" (errorOr response "Failed to get page context"))
     else ret (resp_context response))
    (fun e =>
       modify (addErrorMessage ("Failed to access page: " ++ String_ e)) ;;;
       ret None).

Definition captureScreenshot : Eff Panel (option string) :=
  try_catch
    (response <~ sendMessage (mkMessage CAPTURE_SCREENSHOT None) ;;
     if negb (resp_success response) then
       throw (mkError "Error" (errorOr response "Failed to capture screenshot"))
     else ret (resp_screenshot response))
    (fun _ => ret None).

(** A missing [results] property makes the caller fail on [undefined];
    it is passed on as [None]. *)
Definition executeActions (actions : list Action.t)
  : Eff Panel (option (list ActionResult.t)) :=
  try_catch
    (response <~ sendMessage (mkMessage EXECUTE_ACTIONS (Some actions)) ;;
     if negb (resp_success response) then
       throw (mkError "Error" (errorOr response "Failed to execute actions"))
     else ret (resp_results response))
    (fun e =>
       modify (addErrorMessage ("Failed to execute actions: " ++ String_ e)) ;;;
       ret (Some [])).

(** [chatHistory.slice(-50)] *)
Definition saveChatHistory : Eff Panel unit :=
  modify (fun s =>
    mkPanel (aiClient s) (currentProvider s) (chatHistory s)
            (commandInput_value s) (sendBtn_disabled s) (statusText s)
            (statusBar_hidden s) (chatMessages s)
            (Some (skipn (length (chatHistory s) - 50) (chatHistory s)))
            (sent s) (clockReads s)).

(** [a.description || a.type] *)
Definition label (a : Action.t) : string :=
  match Action.description a with
  | Some d => if (d =? "") then Action.type a else d
  | None => Action.type a
  end.

Definition noActionsMessage : string :=
  "I could not determine any actions to take for this command.".

Definition resultMessage (results : list ActionResult.t) : string :=
  let successCount := length (filter ActionResult.success results) in
  let failureCount := length results - successCount in
  let head := "Completed " ++ ofNat successCount ++ " of "
              ++ ofNat (length results) ++ " actions." in
  if (0 <? failureCount)%nat then
    head ++ "<br><br>Failed actions:<ul class=" ++ dquote ++ "action-list" ++ dquote ++ ">"
    ++ String.concat ""
         (map (fun r =>
                 "<li class=" ++ dquote ++ "action-item error" ++ dquote ++ ">"
                 ++ label (ActionResult.action r) ++ ": "
                 ++ match ActionResult.error r with
                    | Some e => e
                    | None => "undefined"
                    end
                 ++ "</li>")
              (filter (fun r => negb (ActionResult.success r)) results))
    ++ "</ul>"
  else head ++ " All actions completed successfully!".

Definition handleSendCommand : Eff Panel unit :=
  fun s0 =>
  let command := trim (commandInput_value s0) in
  match aiClient s0 with
  | None => (Normal tt, s0)
  | Some client =>
    if (command =? "") then (Normal tt, s0)
    else
      (modify (set_commandInput_value "") ;;;
       modify (set_sendBtn_disabled true) ;;;
       modify (addMessage user command) ;;;
       modify (pushHistory user command) ;;;
       try_finally
         (try_catch
            (modify (showStatus "Analyzing page...") ;;;
             context <~ getPageContext ;;
             match context with
             | None =>
                 modify (set_sendBtn_disabled false) ;;;
                 modify hideStatus
             | Some context =>
                 modify (showStatus "Capturing screenshot...") ;;;
                 screenshot <~ captureScreenshot ;;
                 let context := withScreenshot context screenshot in
                 let providerName :=
                   match currentProvider s0 with
                   | claude => "Claude"
                   | openai => "OpenAI"
                   end in
                 modify (showStatus ("Asking " ++ providerName ++ "...")) ;;;
                 actions <~ (fun s => (client context command, s)) ;;
                 if (length actions =? 0)%nat then
                   modify (addMessage assistant noActionsMessage) ;;;
                   modify (pushHistory assistant noActionsMessage) ;;;
                   modify (set_sendBtn_disabled false) ;;;
                   modify hideStatus
                 else
                   let actionsHtml :=
                     join "<br>"
                       (mapi (fun a i => ofNat (i + 1) ++ ". " ++ label a) actions) in
                   modify (addMessage assistant
                             ("I will perform these actions:<br>" ++ actionsHtml)) ;;;
                   modify (showStatus "Executing actions...") ;;;
                   results <~ executeActions actions ;;
                   match results with
                   | None =>
                       throw (mkError "TypeError"
                                "Cannot read properties of undefined (reading 'filter')")
                   | Some results =>
                       modify (addMessage assistant (resultMessage results)) ;;;
                       modify (pushHistory assistant (resultMessage results)) ;;;
                       saveChatHistory
                   end
             end)
            (fun e => modify (addErrorMessage ("Error: " ++ String_ e))))
         (fun s => hideStatus (set_sendBtn_disabled false s))) s0
  end.

  End WithExtension.
End Sidepanel.

(** ** The Action shape of the specification *)

Module ActionShape.

Definition optionalString (key : string) (v : JSON.value) : bool :=
  match JSON.get key v with
  | None => true
  | Some (JSON.Str _) => true
  | Some _ => false
  end.

Definition requiredString (key : string) (v : JSON.value) : bool :=
  match JSON.get key v with
  | Some (JSON.Str _) => true
  | _ => false
  end.

(** An object whose [type] is one of the three action types, with a
    string [selector] when the type is click or fill, and string [value]
    and [description] when present. *)
Definition conformsToAction (v : JSON.value) : bool :=
  match v with
  | JSON.Object _ =>
      match JSON.get "type" v with
      | Some (JSON.Str t) =>
          ((t =? "click") || (t =? "fill") || (t =? "wait"))
          && (if (t =? "click") || (t =? "fill") then requiredString "selector" v
              else optionalString "selector" v)
          && optionalString "value" v
          && optionalString "description" v
      | _ => false
      end
  | _ => false
  end.

Definition conformsToActions (v : JSON.value) : bool :=
  match v with
  | JSON.Array items => forallb conformsToAction items
  | _ => false
  end.

End ActionShape.

(** [c] occurs in [s]. *)
Fixpoint occurs (c : ascii) (s : string) : bool :=
  match s with
  | EmptyString => false
  | String c' r => Ascii.eqb c' c || occurs c r
  end.

(** ** A small page for examples *)

(** A page given by a table from selector text to the elements it
    matches, the selectors the engine cannot parse, and click handlers
    that remove what a selector matched. *)
Module SimplePage.

Record t := make {
  matches : list (string * list Element.t);
  invalid : list string;
  onclick : list (nat * string);    (* clicking the node removes the selector's matches *)
  written : list (nat * string);    (* values assigned, latest first *)
  href : string;
  title : string
}.

Definition lookup (sel : string) (p : t) : list Element.t :=
  match find (fun kv => fst kv =? sel) (matches p) with
  | Some kv => snd kv
  | None => []
  end.

Definition removed (node : nat) (p : t) : list string :=
  map snd (filter (fun h => (fst h =? node)%nat) (onclick p)).

Definition browser : Browser t := {|
  querySelectorAll sel p :=
    if existsb (String.eqb sel) (invalid p)
    then Throw (mkError "SyntaxError" ("'" ++ sel ++ "' is not a valid selector."))
    else Normal (lookup sel p);
  click el p :=
    (Normal tt,
     make (filter (fun kv => negb (existsb (String.eqb (fst kv))
                                           (removed (Element.node el) p)))
                  (matches p))
          (invalid p) (onclick p) (written p) (href p) (title p));
  set_value el v p :=
    (Normal tt,
     make (matches p) (invalid p) (onclick p)
          ((Element.node el, v) :: written p) (href p) (title p));
  dispatchEvent _ _ p := (Normal tt, p);
  setTimeout _ p := p;
  location_href := href;
  document_title := title
|}.

Definition visibleStyle : CSSStyleDeclaration := mkStyle "block" "visible" "1".

(** An element with the given identity, interface, tag and id. *)
Definition element (node : nat) (iface : ElementInterface) (tag id : string)
  : Element.t :=
  Element.make node iface tag id (Some "") [] (Some "") "" "" "" "" false false
               visibleStyle None.

Definition terms : Element.t :=
  Element.make 1 HTMLInputElement "INPUT" "terms" (Some "") [] (Some "")
               "checkbox" "" "" "on" false false visibleStyle None.
Definition buttonA : Element.t := element 2 HTMLButtonElement "BUTTON" "a".
Definition inputB : Element.t := element 3 HTMLInputElement "INPUT" "b".

(** A page with [#terms], and with [#a] whose click removes [#b]. *)
Definition sample : t :=
  make [("#terms", [terms]); ("#a", [buttonA]); ("#b", [inputB])]
       ["div.md:flex"]
       [(2, "#b")]
       []
       "https://example.test/form"
       "Form".

Definition world (p : t) : @Content.World t := Content.mkWorld p [].

End SimplePage.

(** ** A small extension for examples *)

Module SimpleExtension.
  Import Sidepanel.

(** The relay answers every request with success and an empty page. *)
Definition extension : Extension := {|
  runtime_sendMessage m :=
    Normal (mkResponse true None
              (Some (PageContext.make "https://example.test/" "Example" [] None))
              None (Some []));
  Date_now n := 1000 + n
|}.

(** A planner that finds nothing to do. *)
Definition idlePlanner : AIClient := fun _ _ => Normal [].

Definition panel (command : string) : Panel :=
  mkPanel (Some idlePlanner) claude [] command false "" true [] None [] 0.

End SimpleExtension.

(** ** Vendors for examples *)

Module SimpleVendors.

(** Both vendors answer every request with the same text. *)
Definition replying (text : string) : Vendors := {|
  anthropic_messages_create _ _ := Normal (TextBlock text);
  openai_chat_completions_create _ _ := Normal (Some text)
|}.

Definition context : PageContext.t :=
  PageContext.make "https://example.test/" "Example" [] None.

(** The text of the array with the single action [{type: "wait"}]. *)
Definition waitArray : string :=
  "[{" ++ JSON.q "type" ++ ":" ++ JSON.q "wait" ++ "}]".

(** The text of an array whose single object has type click and no
    selector. *)
Definition clickWithoutSelector : string :=
  "[{" ++ JSON.q "type" ++ ":" ++ JSON.q "click" ++ "}]".

End SimpleVendors.

(** ** The stand-alone Claude client *)

(** The second client source of [src/api]: a [ClaudeClient] class that
    builds the listing and the prompt inline and parses the reply itself. *)
Module ClaudeClientStandalone.
Section Client.
Context `{JSONRuntime} `{Vendors}.

Definition analyzePageAndGetActions (context : PageContext.t) (userCommand : string)
  : completion JSON.value :=
  let elementsText :=
    join newline
      (mapi (fun el idx =>
               let parts := filterBoolean
                 [ Some ("[" ++ ofNat idx ++ "]");
                   Some ("Tag: " ++ DOMElement.tag el);
                   andThen (DOMElement.type el) (fun v => "Type: " ++ v);
                   andThen (Some (DOMElement.selector el)) (fun v => "Selector: " ++ v);
                   andThen (DOMElement.id el) (fun v => "ID: " ++ v);
                   andThen (DOMElement.className el) (fun v => "Class: " ++ v);
                   andThen (DOMElement.text el) (fun v => "Text: " ++ dquote ++ v ++ dquote);
                   andThen (DOMElement.placeholder el)
                           (fun v => "Placeholder: " ++ dquote ++ v ++ dquote);
                   andThen (DOMElement.name el) (fun v => "Name: " ++ v);
                   andThen (DOMElement.value el) (fun v => "Value: " ++ dquote ++ v ++ dquote);
                   match DOMElement.checked el with
                   | Some b => Some ("Checked: " ++ ofBool b)
                   | None => None
                   end;
                   match DOMElement.disabled el with
                   | Some true => Some ("Disabled: " ++ ofBool true)
                   | _ => None
                   end ] in
               join " | " parts)
            (PageContext.elements context)) in
  let userPrompt :=
    "Page URL: " ++ PageContext.url context ++ newline ++
    "Page Title: " ++ PageContext.title context ++ newline ++
    newline ++
    "Interactive Elements:" ++ newline ++
    elementsText ++ newline ++
    newline ++
    "User Command: " ++ userCommand ++ newline ++
    newline ++
    "Please analyze the page and provide actions to complete this task." in
  content <-- anthropic_messages_create (PageContext.screenshot context) userPrompt ;;
  match content with
  | TextBlock content_text =>
      let text := trim content_text in
      let jsonMatch := Regex.match_ text in
      match jsonMatch with
      | None => Throw (mkError "Error" "Could not find JSON array in Claude response")
      | Some m => JSON_parse m
      end
  | OtherBlock _ => Throw (mkError "Error" "Unexpected response type from Claude")
  end.

End Client.
End ClaudeClientStandalone.

(** ** The message listener of the content script *)

Module ContentListener.
Section WithBrowser.
Context {Page : Type} `{Browser Page}.
Import Sidepanel.
Local Open Scope eff_scope.

(** The listener: [None] when it answers nothing ([return false]); a
    thrown error also leaves the request unanswered.  [message.data] is
    read as the action list; iterating a missing one throws. *)
Definition onMessage (message : Message) : Content.Exec (option Response) :=
  match msg_type message with
  | PING => ret (Some (mkResponse true None None None None))
  | GET_PAGE_CONTEXT =>
      context <~ Content.query Content.extractPageContext ;;
      ret (Some (mkResponse true None (Some context) None None))
  | EXECUTE_ACTIONS =>
      match msg_data message with
      | Some actions =>
          results <~ Content.executeActions actions ;;
          ret (Some (mkResponse true None None None (Some results)))
      | None => throw (mkError "TypeError" "actions is not iterable")
      end
  | _ => ret None
  end.

End WithBrowser.
End ContentListener.

(** ** The background service worker: [src/background.ts] *)

Module Background.
Import Sidepanel.

(** [s.split(sep)] for a one-character separator. *)
Fixpoint split (sep : ascii) (s : string) : list string :=
  match s with
  | EmptyString => [EmptyString]
  | String c r =>
      if Ascii.eqb c sep then EmptyString :: split sep r
      else match split sep r with
           | piece :: pieces => String c piece :: pieces
           | [] => [String c EmptyString]
           end
  end.

(** What the worker reads of a tab. *)
Record Tab := mkTab {
  tab_id : option nat;
  tab_url : option string;
  tab_windowId : nat
}.

(** What [chrome.tabs.sendMessage] hands to its callback. *)
Inductive Delivery :=
| Delivered (response : option Response)
| LastError (message : option string).     (* chrome.runtime.lastError.message *)

(** The browser as the worker sees it. *)
Class Chrome := {
  tabs_query : list Tab;                    (* { active: true, lastFocusedWindow: true } *)
  tabs_ping : nat -> completion unit;       (* tabs.sendMessage(tabId, { type: 'PING' }) *)
  scripting_executeScript : nat -> completion unit;
  tabs_sendMessage : nat -> Message -> Delivery;
  tabs_captureVisibleTab : nat -> completion string
}.

(** [activeTab?.id] when it is truthy. *)
Definition truthyId (activeTab : option Tab) : option nat :=
  match activeTab with
  | Some tab =>
      match tab_id tab with
      | Some (S n) => Some (S n)
      | _ => None
      end
  | None => None
  end.

Definition failure (error : option string) : Response :=
  mkResponse false error None None None.

(** The test on the tab's URL. *)
Definition systemPage (url : string) : bool :=
  prefix "chrome://" url || prefix "chrome-extension://" url
  || prefix "edge://" url || prefix "about:" url || (url =? "").

Section Worker.
Context `{Chrome}.

Definition ensureContentScriptLoaded (tabId : nat) : bool :=
  match tabs_ping tabId with
  | Normal _ => true
  | Throw _ =>
      match scripting_executeScript tabId with
      | Normal _ => true
      | Throw _ => false
      end
  end.

(** The branch for requests that go to the content script of the active
    tab. *)
Definition relay (message : Message) : option Response :=
  let activeTab := hd_error tabs_query in
  match truthyId activeTab with
  | None => Some (failure (Some "No active tab found"))
  | Some id =>
      let url := match activeTab with
                 | Some tab => match tab_url tab with Some u => u | None => "" end
                 | None => ""
                 end in
      if systemPage url then
        Some (failure (Some
          "Cannot access this page. Content scripts cannot run on browser system pages."))
      else if negb (ensureContentScriptLoaded id) then
        Some (failure (Some
          "Cannot inject content script. This page may be protected or restricted."))
      else
        match tabs_sendMessage id message with
        | LastError m => Some (failure m)
        | Delivered response => response
        end
  end.

(** The branch for screenshots. *)
Definition capture : option Response :=
  let activeTab := hd_error tabs_query in
  match truthyId activeTab, activeTab with
  | Some _, Some tab =>
      match tabs_captureVisibleTab (tab_windowId tab) with
      | Normal dataUrl =>
          let base64 := nth_error (split "," dataUrl) 1 in
          Some (mkResponse true None None base64 None)
      | Throw e => Some (failure (Some (String_ e)))
      end
  | _, _ => Some (failure (Some "No active tab found"))
  end.

(** The listener: [None] when no response is sent. *)
Definition onMessage (message : Message) : option Response :=
  match msg_type message with
  | GET_PAGE_CONTEXT | EXECUTE_ACTIONS => relay message
  | CAPTURE_SCREENSHOT => capture
  | _ => None
  end.

End Worker.
End Background.

(** ** Saving the settings: the click handler of [saveSettingsBtn] *)

Module Settings.






End Settings.

(** ** The pipeline wired together *)

(** The panel's requests answered by the background worker, which hands
    them to the content script's listener on the page as it is when the
    request arrives: [observed] for the snapshot, [acted] for the
    execution.  A request left unanswered, or answered with [undefined],
    makes the panel fail on reading the response. *)
Module Wired.
Section Pipeline.
Context {Page : Type} `{Browser Page}.
Import Sidepanel.

Definition listen (w : @Content.World Page) (message : Message) : Background.Delivery :=
  match fst (ContentListener.onMessage message w) with
  | Normal response => Background.Delivered response
  | Throw _ =>
      Background.LastError
        (Some "The message port closed before a response was received.")
  end.

Definition chrome (tabs : list Background.Tab) (loaded : bool)
           (observed acted : @Content.World Page)
           (shot : completion string) : Background.Chrome := {|
  Background.tabs_query := tabs;
  Background.tabs_ping _ :=
    if loaded then Normal tt
    else Throw (mkError "Error" "Could not establish connection. Receiving end does not exist.");
  Background.scripting_executeScript _ :=
    Throw (mkError "Error" "Cannot access contents of the page.");
  Background.tabs_sendMessage _ message :=
    match msg_type message with
    | EXECUTE_ACTIONS => listen acted message
    | _ => listen observed message
    end;
  Background.tabs_captureVisibleTab _ := shot
|}.

Definition extension (c : Background.Chrome) (clock : nat -> nat) : Extension := {|
  runtime_sendMessage message :=
    match @Background.onMessage c message with
    | Some response => Normal response
    | None =>
        Throw (mkError "TypeError"
                 "Cannot read properties of undefined (reading 'success')")
    end;
  Date_now := clock
|}.

End Pipeline.
End Wired.

(** ** More pages for examples *)

Module SimplePage2.

(** An element that is not an HTMLElement. *)
Definition icon : Element.t := SimplePage.element 4 NonHTMLElement "svg" "icon".

(** The sample page with an SVG icon added. *)
Definition withIcon : SimplePage.t :=
  SimplePage.make
    [("#terms", [SimplePage.terms]); ("#a", [SimplePage.buttonA]);
     ("#b", [SimplePage.inputB]); ("#icon", [icon])]
    ["div.md:flex"] [(2, "#b")] [] "https://example.test/form" "Form".

End SimplePage2.

(** Vendors whose call fails with the given error. *)
Module FailingVendors.

Definition failing (e : Error) : Vendors := {|
  anthropic_messages_create _ _ := Throw e;
  openai_chat_completions_create _ _ := Throw e
|}.

Definition rateLimited : Error := mkError "Error" "429 rate limit exceeded".

End FailingVendors.

(** ** An invariant of the reference decoder *)

Module DecoderInvariant.
Import JSON.



End DecoderInvariant.

(** ** How the panel's state grows *)

Module PanelOrder.
Import Sidepanel.

(** [s'] is [s] with the client, provider and command input as they were
    and with chat messages, history entries and requests added at the
    end. *)
Definition Extends (s s' : Panel) : Prop :=
  aiClient s' = aiClient s
  /\ currentProvider s' = currentProvider s
  /\ commandInput_value s' = commandInput_value s
  /\ (exists more, chatMessages s' = (chatMessages s ++ more)%list)
  /\ (exists more, chatHistory s' = (chatHistory s ++ more)%list)
  /\ (exists more, sent s' = (sent s ++ more)%list).

(** A step that only extends the state, whatever it returns. *)
Definition Extending {A} (m : Eff Panel A) : Prop :=
  forall s, Extends s (snd (m s)).

End PanelOrder.

(** ** A scripted extension for examples *)

Module ScriptedExtension.
Import Sidepanel.

(** The relay answers the three kinds of request as given. *)
Definition extension (page shot exec : completion Response) : Extension := {|
  runtime_sendMessage m :=
    match msg_type m with
    | GET_PAGE_CONTEXT => page
    | CAPTURE_SCREENSHOT => shot
    | _ => exec
    end;
  Date_now n := n
|}.

(** A planner with a fixed outcome. *)
Definition planner (outcome : completion (list Action.t)) : AIClient :=
  fun _ _ => outcome.

Definition panel (client : AIClient) (command : string) : Panel :=
  mkPanel (Some client) openai [] command false "" true [] None [] 0.

Definition emptyPage : PageContext.t :=
  PageContext.make "https://example.test/" "Example" [] None.

Definition pageOk : completion Response :=
  Normal (mkResponse true None (Some emptyPage) None None).

Definition noShot : completion Response :=
  Normal (mkResponse false (Some "No active tab found") None None None).

Definition refused : completion Response :=
  Normal (mkResponse false
            (Some "Cannot access this page. Content scripts cannot run on browser system pages.")
            None None None).

Definition clickOk : Action.t :=
  Action.make "click" "#ok" None (Some "Click OK").

End ScriptedExtension.

(** ** A browser with one ordinary tab, for examples *)

Module SimpleChrome.

Definition tab : Background.Tab :=
  Background.mkTab (Some 7) (Some "https://example.test/form") 1.

Definition settingsTab : Background.Tab :=
  Background.mkTab (Some 8) (Some "chrome://settings/") 1.

(** A browser whose active tab is [t], with the content script loaded on
    the sample page and a screenshot at hand. *)
Definition chrome (t : Background.Tab) : Background.Chrome :=
  @Wired.chrome _ SimplePage.browser [t] true
    (SimplePage.world SimplePage.sample) (SimplePage.world SimplePage.sample)
    (Normal "data:image/png;base64,iVBORw0KGgo=").

End SimpleChrome.

(** * Properties *)

(** ** The action executor *)

Section ExecutorProperties.
  Context {Page : Type} `{Browser Page}.
  Import Content.

Ltac unfold_exec :=
  unfold executeActions, executeAction, bind, try_catch, console_log, sleep,
    query, act, ret, succeeded, failed in *; simpl in *.

Ltac case_step :=
  match goal with
  | |- context [Action.type ?a =? ?s] => destruct (Action.type a =? s) eqn:?
  | |- context [querySelector ?s ?p] => destruct (querySelector s p) as [[?|]|?] eqn:?
  | |- context [instanceofHTMLElement ?i] => destruct (instanceofHTMLElement i) eqn:?
  | |- context [match Element.iface ?e with _ => _ end] => destruct (Element.iface e) eqn:?
  | |- context [click ?e ?p] => destruct (click e p) as [[[]|?] ?] eqn:?
  | |- context [set_value ?e ?v ?p] => destruct (set_value e v p) as [[[]|?] ?] eqn:?
  | |- context [dispatchEvent ?e ?v ?p] => destruct (dispatchEvent e v p) as [[[]|?] ?] eqn:?
  end; simpl.

(** [executeAction] never throws, reports on the action it was given and
    logs it once. *)
Lemma executeAction_total (a : Action.t) (w : World) :
  exists r w',
    executeAction a w = (Normal r, w')
    /\ ActionResult.action r = a
    /\ console w' = (console w ++ [Executing a])%list.
Proof.
  unfold_exec.
  repeat case_step; eexists; eexists; repeat split; reflexivity.
Qed.

Lemma executeAction_wait (a : Action.t) (w : World) :
  Action.type a = "wait" ->
  executeAction a w =
    (Normal (succeeded a),
     mkWorld (setTimeout 1000 (page w)) (console w ++ [Executing a])).
Proof.
  intros Hty. unfold_exec. rewrite Hty. reflexivity.
Qed.

Lemma executeAction_not_found (a : Action.t) (w : World) :
  Action.type a <> "wait" ->
  querySelector (Action.selector a) (page w) = Normal None ->
  executeAction a w =
    (Normal (failed a ("Element not found: " ++ Action.selector a)),
     mkWorld (page w) (console w ++ [Executing a])).
Proof.
  intros Hty Hq. unfold_exec.
  apply String.eqb_neq in Hty. rewrite Hty. simpl. rewrite Hq. reflexivity.
Qed.

Lemma executeAction_unknown (a : Action.t) (w : World) :
  Action.type a <> "wait" -> Action.type a <> "click" -> Action.type a <> "fill" ->
  exists e,
    executeAction a w =
      (Normal (failed a e), mkWorld (page w) (console w ++ [Executing a]))
    /\ (forall el,
          querySelector (Action.selector a) (page w) = Normal (Some el) ->
          instanceofHTMLElement (Element.iface el) = true ->
          e = "Unknown action type: " ++ Action.type a).
Proof.
  intros Hw Hc Hf.
  apply String.eqb_neq in Hw. apply String.eqb_neq in Hc. apply String.eqb_neq in Hf.
  unfold_exec. rewrite Hw. simpl.
  destruct (querySelector (Action.selector a) (page w)) as [[el|]|err] eqn:Hq; simpl.
  - destruct (instanceofHTMLElement (Element.iface el)) eqn:Hi; simpl.
    + rewrite Hc, Hf. eexists. split; [reflexivity|].
      intros el' Hel _. reflexivity.
    + eexists. split; [reflexivity|].
      intros el' Hel Hi'. injection Hel as <-. congruence.
  - eexists. split; [reflexivity|]. intros el Hel. discriminate.
  - eexists. split; [reflexivity|]. intros el Hel. discriminate.
Qed.

Lemma for_of_failure (a : Action.t) rest acc (w w' : World) r :
  executeAction a w = (Normal r, w') ->
  ActionResult.success r = false ->
  for_of (a :: rest) acc w = (Normal (acc ++ [r])%list, w').
Proof.
  intros He Hs. simpl. unfold bind at 1. rewrite He, Hs. reflexivity.
Qed.

Lemma for_of_success (a : Action.t) rest acc (w w' : World) r :
  executeAction a w = (Normal r, w') ->
  ActionResult.success r = true ->
  for_of (a :: rest) acc w =
    for_of rest (acc ++ [r])%list (mkWorld (setTimeout 500 (page w')) (console w')).
Proof.
  intros He Hs. simpl. unfold bind at 1. rewrite He, Hs. reflexivity.
Qed.

(** The loop returns, and its results stop at the first failure. *)
Lemma for_of_stops (actions : list Action.t) :
  forall acc (w : World),
  exists rs w',
    for_of actions acc w = (Normal (acc ++ rs)%list, w')
    /\ StopsAtFirstFailure actions rs
    /\ console w' = (console w ++ map Executing (firstn (length rs) actions))%list.
Proof.
  induction actions as [|a rest IH]; intros acc w.
  - exists [], w. simpl. rewrite !app_nil_r. repeat split. constructor.
  - destruct (executeAction_total a w) as (r & w1 & He & Ha & Hc).
    destruct (ActionResult.success r) eqn:Hs.
    + destruct (IH (acc ++ [r])%list (mkWorld (setTimeout 500 (page w1)) (console w1)))
        as (rs & w2 & Hf & Hrun & Hc2).
      exists (r :: rs), w2. split; [|split].
      * rewrite (@for_of_success a rest acc w w1 r He Hs), Hf, <- app_assoc. reflexivity.
      * now constructor.
      * rewrite Hc2. simpl. rewrite Hc, <- app_assoc. reflexivity.
    + exists [r], w1. split; [|split].
      * apply (@for_of_failure a rest acc w w1 r He Hs).
      * now constructor.
      * simpl. exact Hc.
Qed.

Lemma executeActions_stops (actions : list Action.t) (w : World) :
  exists results w',
    executeActions actions w = (Normal results, w')
    /\ StopsAtFirstFailure actions results
    /\ console w' =
         (console w ++ map Executing (firstn (length results) actions))%list.
Proof.
  destruct (for_of_stops actions [] w) as (rs & w' & Hf & Hrun & Hc).
  exists rs, w'. auto.
Qed.

End ExecutorProperties.

Section StopsAtFirstFailureFacts.
  Import Content.

Lemma stops_length actions results :
  StopsAtFirstFailure actions results -> length results <= length actions.
Proof. induction 1; simpl; lia. Qed.

Lemma stops_positional actions results :
  StopsAtFirstFailure actions results ->
  forall i r, nth_error results i = Some r ->
              nth_error actions i = Some (ActionResult.action r).
Proof.
  induction 1 as [|a rest r Ha Hs|a rest r rs Ha Hs Hrun IH]; intros i r' Hi.
  - destruct i; discriminate.
  - destruct i as [|[|i]]; try discriminate. injection Hi as <-. simpl. now rewrite Ha.
  - destruct i as [|i]; simpl in *.
    + injection Hi as <-. now rewrite Ha.
    + now apply IH.
Qed.

Lemma stops_prefix actions results :
  StopsAtFirstFailure actions results ->
  map ActionResult.action results = firstn (length results) actions.
Proof. induction 1; simpl; congruence. Qed.

Lemma stops_all_but_last actions results :
  StopsAtFirstFailure actions results ->
  forall i r, nth_error results i = Some r -> S i < length results ->
              ActionResult.success r = true.
Proof.
  induction 1 as [|a rest r Ha Hs|a rest r rs Ha Hs Hrun IH]; intros i r' Hi Hlt.
  - destruct i; discriminate.
  - simpl in Hlt. lia.
  - destruct i as [|i]; simpl in *.
    + now injection Hi as <-.
    + apply (IH i); [assumption | lia].
Qed.

Lemma stops_short_iff actions results :
  StopsAtFirstFailure actions results ->
  (length results < length actions <->
   exists i r, nth_error results i = Some r
               /\ ActionResult.success r = false
               /\ S i < length actions).
Proof.
  induction 1 as [|a rest r Ha Hs|a rest r rs Ha Hs Hrun IH].
  - split; [simpl; lia|]. intros (i & r & Hi & _). destruct i; discriminate.
  - split.
    + intros Hlt. exists 0, r. simpl in *. repeat split; [assumption | lia].
    + intros (i & r' & Hi & _ & Hlt).
      destruct i as [|[|i]]; try discriminate. simpl in *. lia.
  - split.
    + intros Hlt. simpl in Hlt.
      destruct IH as [IH _]. destruct IH as (i & r' & Hi & Hf & Hlt'); [lia|].
      exists (S i), r'. simpl. repeat split; [assumption | assumption | lia].
    + intros (i & r' & Hi & Hf & Hlt). destruct i as [|i]; simpl in *.
      * injection Hi as <-. congruence.
      * assert (length rs < length rest); [|lia].
        apply IH. exists i, r'. repeat split; [assumption | assumption | lia].
Qed.

End StopsAtFirstFailureFacts.

(** ** Claims about the executor *)

Section ExecutorClaims.
  Context {Page : Type} `{Browser Page}.
  Import Content.

(** C1: for every action list, [executeActions] returns a result list no
    longer than the input, and strictly shorter exactly when some action
    failed at a position before the last one; the results are those of a
    prefix of the list, in order, and only that prefix was attempted. *)
Theorem C1_execute_length_and_truncation (actions : list Action.t) (w : World) :
  exists results w',
    executeActions actions w = (Normal results, w')
    /\ length results <= length actions
    /\ (length results < length actions <->
        exists i r, nth_error results i = Some r
                    /\ ActionResult.success r = false
                    /\ S i < length actions)
    /\ map ActionResult.action results = firstn (length results) actions
    /\ console w' =
         (console w ++ map Executing (firstn (length results) actions))%list.
Proof.
  destruct (executeActions_stops actions w) as (results & w' & He & Hrun & Hc).
  exists results, w'. repeat split; try assumption.
  - now apply stops_length.
  - now apply stops_short_iff.
  - now apply stops_short_iff.
  - now apply stops_prefix.
Qed.

(** C2: when the selector of a click or fill action resolves to no
    element, [executeAction] returns success=false with the error
    "Element not found: <selector>", and the loop of [executeActions]
    returns with that result last, having attempted (logged) nothing
    after it and left the page as it was. *)
Theorem C2_element_not_found_halts
    (a : Action.t) (rest : list Action.t) (acc : list ActionResult.t) (w : World) :
  Action.type a = "click" \/ Action.type a = "fill" ->
  querySelector (Action.selector a) (page w) = Normal None ->
  let r := ActionResult.make false a
             (Some ("Element not found: " ++ Action.selector a)) in
  let w' := mkWorld (page w) (console w ++ [Executing a]) in
  executeAction a w = (Normal r, w')
  /\ for_of (a :: rest) acc w = (Normal (acc ++ [r])%list, w')
  /\ executeActions (a :: rest) w = (Normal [r], w').
Proof.
  intros Hty Hq r w'.
  assert (Hnw : Action.type a <> "wait")
    by (destruct Hty as [-> | ->]; discriminate).
  pose proof (executeAction_not_found a w Hnw Hq) as He.
  split; [exact He|]. split.
  - eapply for_of_failure; [exact He | reflexivity].
  - unfold executeActions.
    change [r] with ([] ++ [r])%list.
    eapply for_of_failure; [exact He | reflexivity].
Qed.

(** C7, as the code has it: an action whose type is none of click, fill
    and wait yields a failure result for that action and the loop stops
    there with the page untouched; the error is
    "Unknown action type: <type>" when the selector resolves to an
    HTMLElement. *)
Theorem C7_unknown_type_fails_and_halts
    (a : Action.t) (rest : list Action.t) (acc : list ActionResult.t) (w : World) :
  Action.type a <> "click" -> Action.type a <> "fill" -> Action.type a <> "wait" ->
  exists r,
    let w' := mkWorld (page w) (console w ++ [Executing a]) in
    executeAction a w = (Normal r, w')
    /\ ActionResult.success r = false
    /\ ActionResult.action r = a
    /\ for_of (a :: rest) acc w = (Normal (acc ++ [r])%list, w')
    /\ (forall el,
          querySelector (Action.selector a) (page w) = Normal (Some el) ->
          instanceofHTMLElement (Element.iface el) = true ->
          ActionResult.error r = Some ("Unknown action type: " ++ Action.type a)).
Proof.
  intros Hc Hf Hw.
  destruct (executeAction_unknown a w Hw Hc Hf) as (e & He & Hname).
  exists (failed a e). simpl. repeat split.
  - exact He.
  - eapply for_of_failure; [exact He | reflexivity].
  - intros el Hq Hi. now rewrite (Hname el Hq Hi).
Qed.

(** C10: the i-th result reports on the i-th action of the input, every
    result but the last has success=true, and a wait action yields
    success=true after the one-second sleep whatever its selector is and
    whatever the page would answer for it. *)
Theorem C10_results_follow_actions :
  (forall (actions : list Action.t) (w : World),
     exists results w',
       executeActions actions w = (Normal results, w')
       /\ (forall i r, nth_error results i = Some r ->
                       nth_error actions i = Some (ActionResult.action r))
       /\ (forall i r, nth_error results i = Some r -> S i < length results ->
                       ActionResult.success r = true))
  /\ (forall (selector : string) (value description : option string) (w : World),
        let a := Action.make "wait" selector value description in
        executeAction a w =
          (Normal (ActionResult.make true a None),
           mkWorld (setTimeout 1000 (page w)) (console w ++ [Executing a]))).
Proof.
  split.
  - intros actions w.
    destruct (executeActions_stops actions w) as (results & w' & He & Hrun & _).
    exists results, w'. repeat split; try assumption.
    + exact (stops_positional Hrun).
    + exact (stops_all_but_last Hrun).
  - intros selector value description w a.
    now apply executeAction_wait.
Qed.

End ExecutorClaims.

(** Scenario B of the specification, through C2: filling a selector the
    page does not have stops the batch at once. *)
Lemma C2_witness :
  let a := Action.make "fill" "#missing" (Some "x") None in
  let w := SimplePage.world SimplePage.sample in
  (Action.type a = "click" \/ Action.type a = "fill")
  /\ @querySelector _ SimplePage.browser (Action.selector a) (Content.page w) = Normal None
  /\ @Content.executeActions _ SimplePage.browser
       [a; Action.make "click" "#a" None None] w
     = (Normal [ActionResult.make false a (Some "Element not found: #missing")],
        Content.mkWorld SimplePage.sample [Content.Executing a]).
Proof.
  intros a w.
  split; [right; reflexivity|].
  split; [reflexivity|].
  apply (@C2_element_not_found_halts _ SimplePage.browser a
           [Action.make "click" "#a" None None] [] w).
  - right; reflexivity.
  - reflexivity.
Defined.

(** C7 as stated fails: an action of type "scroll" whose selector matches
    nothing is reported with "Element not found: #missing", which does not
    mention the type. *)
Lemma C7_counterexample :
  let a := Action.make "scroll" "#missing" None None in
  ~ (exists r w',
       @Content.executeAction _ SimplePage.browser a
          (SimplePage.world SimplePage.sample) = (Normal r, w')
       /\ ActionResult.success r = false
       /\ Content.namesType r).
Proof.
  intros a (r & w' & He & _ & e & Herr & Hinc).
  vm_compute in He. injection He as <- <-.
  simpl in Herr. injection Herr as <-.
  vm_compute in Hinc. discriminate.
Qed.

Lemma C7_witness :
  let a := Action.make "scroll" "#a" None None in
  let w := SimplePage.world SimplePage.sample in
  (Action.type a <> "click" /\ Action.type a <> "fill" /\ Action.type a <> "wait")
  /\ exists r,
       @Content.executeAction _ SimplePage.browser a w
         = (Normal r, Content.mkWorld SimplePage.sample [Content.Executing a])
       /\ ActionResult.success r = false
       /\ ActionResult.error r = Some "Unknown action type: scroll".
Proof.
  intros a w.
  assert (Hc : Action.type a <> "click") by discriminate.
  assert (Hf : Action.type a <> "fill") by discriminate.
  assert (Hw : Action.type a <> "wait") by discriminate.
  split; [auto|].
  destruct (@C7_unknown_type_fails_and_halts _ SimplePage.browser a [] [] w Hc Hf Hw)
    as (r & He & Hs & _ & _ & Hname).
  exists r. split; [exact He|]. split; [exact Hs|].
  apply (Hname SimplePage.buttonA); reflexivity.
Defined.

(** ** The selector synthesizer and the page observer *)

Section ObserverProperties.
Context {Page : Type} `{Browser Page}.
Import Content.

(** A failure of [getSelector] is a failure of the selector engine. *)
Lemma getSelector_throw (el : Element.t) (p : Page) e :
  getSelector el p = Throw e -> exists sel, querySelectorAll sel p = Throw e.
Proof.
  unfold getSelector, classSelector, placeholderSelector.
  repeat match goal with
         | |- context [querySelectorAll ?s p] =>
             let Hq := fresh "Hq" in
             destruct (querySelectorAll s p) eqn:Hq; simpl
         | |- context [match ?x with _ => _ end] => destruct x; simpl
         end;
    intros Hthrow; try discriminate;
    injection Hthrow as <-; eexists; eassumption.
Qed.

Lemma retained_visible (el : Element.t) :
  retained el = true <->
  instanceofHTMLElement (Element.iface el) = true
  /\ display (Element.computedStyle el) <> "none"
  /\ visibility (Element.computedStyle el) <> "hidden"
  /\ opacity (Element.computedStyle el) <> "0".
Proof.
  unfold retained, invisible.
  rewrite andb_true_iff, negb_true_iff, !orb_false_iff, !String.eqb_neq.
  tauto.
Qed.

Lemma forEach_spec (foundElements : list Element.t) (p : Page) :
  forall elements,
    match forEach foundElements elements p with
    | Normal elements' =>
        exists pushed,
          elements' = (elements ++ pushed)%list
          /\ Forall2 (described p) (filter retained foundElements) pushed
    | Throw e => exists sel, querySelectorAll sel p = Throw e
    end.
Proof.
  induction foundElements as [|el rest IH]; intros elements; simpl.
  - exists []. rewrite app_nil_r. split; [reflexivity | constructor].
  - unfold retained at 1.
    destruct (instanceofHTMLElement (Element.iface el)); simpl; [|apply IH].
    destruct (invisible (Element.computedStyle el)); simpl; [apply IH|].
    destruct (getSelector el p) as [selector|e] eqn:Hsel; simpl.
    + specialize (IH (elements ++ [describe el selector])%list).
      destruct (forEach rest (elements ++ [describe el selector]) p); [|exact IH].
      destruct IH as (pushed & -> & Hall).
      exists (describe el selector :: pushed). split.
      * now rewrite <- app_assoc.
      * constructor; [|exact Hall]. now exists selector.
    + now apply getSelector_throw with el.
Qed.

Lemma Forall2_firstn {A B} (R : A -> B -> Prop) n :
  forall l1 l2, Forall2 R l1 l2 -> Forall2 R (firstn n l1) (firstn n l2).
Proof.
  induction n as [|n IH]; intros l1 l2 Hall; simpl.
  - constructor.
  - destruct Hall; constructor; auto.
Qed.

End ObserverProperties.

Section ObserverClaims.
Context {Page : Type} `{Browser Page}.
Import Content.

(** C5: whenever [extractPageContext] returns, the snapshot has at most
    100 elements, and they describe, one for one and in the order the page
    query found them, the first retained elements; a retained element is an
    HTMLElement whose computed style has neither display "none" nor
    visibility "hidden" nor opacity "0".  It returns unless the selector
    engine throws. *)
Theorem C5_snapshot_bounded_and_visible (p : Page) :
  match extractPageContext p with
  | Normal context =>
      length (PageContext.elements context) <= 100
      /\ exists foundElements,
           querySelectorAll (join "," interactiveSelectors) p = Normal foundElements
           /\ Forall2
                (fun el d =>
                   described p el d
                   /\ display (Element.computedStyle el) <> "none"
                   /\ visibility (Element.computedStyle el) <> "hidden"
                   /\ opacity (Element.computedStyle el) <> "0")
                (firstn 100 (filter retained foundElements))
                (PageContext.elements context)
  | Throw e => exists sel, querySelectorAll sel p = Throw e
  end.
Proof.
  unfold extractPageContext.
  destruct (querySelectorAll (join "," interactiveSelectors) p)
    as [foundElements|e] eqn:Hfound; cbn [cbind]; [|eexists; exact Hfound].
  pose proof (forEach_spec foundElements p []) as Hspec.
  destruct (forEach foundElements [] p) as [elements|e]; cbn [cbind]; [|exact Hspec].
  destruct Hspec as (pushed & -> & Hall). cbn [PageContext.elements app].
  split.
  - apply firstn_le_length.
  - exists foundElements. split; [reflexivity|].
    apply Forall2_firstn.
    assert (Hret : Forall (fun el => retained el = true) (filter retained foundElements)).
    { apply Forall_forall. intros el Hin. now apply filter_In in Hin. }
    revert Hret. induction Hall as [|el d l1 l2 Hd Hall IH]; intros Hret.
    + constructor.
    + inversion Hret as [|? ? Hel Hrest]; subst.
      constructor; [|now apply IH].
      apply retained_visible in Hel. tauto.
Qed.

(** C6: an element with a non-empty id gets the selector "#<id>", whatever
    its name, classes, placeholder and position among its siblings. *)
Theorem C6_id_rule_wins (el : Element.t) (p : Page) :
  Element.id el <> "" ->
  getSelector el p = Normal ("#" ++ Element.id el).
Proof.
  intros Hid. unfold getSelector.
  apply String.eqb_neq in Hid. now rewrite Hid.
Qed.

End ObserverClaims.

Lemma C6_witness :
  let el := Element.make 7 HTMLInputElement "INPUT" "email" (Some "field wide")
              [("name", "email"); ("placeholder", "you@example.test")]
              (Some "") "text" "email" "you@example.test" "" false false
              SimplePage.visibleStyle (Some [(6, "INPUT"); (7, "INPUT")]) in
  Element.id el <> ""
  /\ @Content.getSelector _ SimplePage.browser el SimplePage.sample = Normal "#email".
Proof.
  intros el.
  assert (Hid : Element.id el <> "") by discriminate.
  split; [exact Hid|].
  exact (@C6_id_rule_wins _ SimplePage.browser el SimplePage.sample Hid).
Defined.

(** ** Strings, trimming and the bracket span *)

Lemma append_assoc (a b c : string) : (a ++ b) ++ c = a ++ (b ++ c).
Proof. induction a as [|x a IH]; simpl; [reflexivity | now rewrite IH]. Qed.

Lemma append_nil_r (a : string) : a ++ "" = a.
Proof. induction a as [|x a IH]; simpl; [reflexivity | now rewrite IH]. Qed.

Lemma trimStart_app (a b : string) (c : ascii) :
  isWhiteSpace c = false ->
  trimStart (a ++ String c b) = trimStart a ++ String c b.
Proof.
  intros Hc. induction a as [|x a IH]; simpl.
  - now rewrite Hc.
  - destruct (isWhiteSpace x); [exact IH | reflexivity].
Qed.

Lemma trimEnd_cons (b : string) (c : ascii) :
  isWhiteSpace c = false ->
  trimEnd (String c b) = String c (trimEnd b).
Proof.
  intros Hc. simpl. destruct (trimEnd b); [now rewrite Hc | reflexivity].
Qed.

Lemma trimEnd_app (a b : string) (c : ascii) :
  isWhiteSpace c = false ->
  trimEnd (a ++ String c b) = a ++ String c (trimEnd b).
Proof.
  intros Hc. induction a as [|x a IH].
  - now apply trimEnd_cons.
  - cbn [append trimEnd]. rewrite IH. destruct a; reflexivity.
Qed.

Lemma trimStart_suffix (s : string) : exists a, s = a ++ trimStart s.
Proof.
  induction s as [|x s (a & IH)]; simpl.
  - now exists "".
  - destruct (isWhiteSpace x).
    + exists (String x a). simpl. now rewrite <- IH.
    + now exists "".
Qed.

Lemma trimEnd_prefix (s : string) : exists b, s = trimEnd s ++ b.
Proof.
  induction s as [|x s (b & IH)]; simpl.
  - now exists "".
  - destruct (trimEnd s) eqn:Ht.
    + destruct (isWhiteSpace x).
      * now exists (String x s).
      * exists s. reflexivity.
    + exists b. cbn [append]. f_equal. exact IH.
Qed.

Lemma trim_substring (s : string) : exists a b, s = a ++ trim s ++ b.
Proof.
  destruct (trimStart_suffix s) as (a & Ha).
  destruct (trimEnd_prefix (trimStart s)) as (b & Hb).
  exists a, b. unfold trim. now rewrite <- Hb.
Qed.

Lemma occurs_trimStart (c : ascii) (s : string) :
  occurs c s = false -> occurs c (trimStart s) = false.
Proof.
  induction s as [|x s IH]; simpl; [reflexivity|].
  intros Hocc. apply orb_false_iff in Hocc as [Hx Hs].
  destruct (isWhiteSpace x); [now apply IH|].
  simpl. now rewrite Hx, Hs.
Qed.

Lemma occurs_trimEnd (c : ascii) (s : string) :
  occurs c s = false -> occurs c (trimEnd s) = false.
Proof.
  induction s as [|x s IH]; simpl; [reflexivity|].
  intros Hocc. apply orb_false_iff in Hocc as [Hx Hs].
  specialize (IH Hs).
  destruct (trimEnd s).
  - destruct (isWhiteSpace x); simpl; [reflexivity | now rewrite Hx].
  - cbn [occurs] in *. now rewrite Hx, IH.
Qed.

(** Trimming a reply leaves a bracketed part in its middle as it is. *)
Lemma trim_around_span (pre mid post : string) :
  trim (pre ++ "[" ++ mid ++ "]" ++ post)
  = trimStart pre ++ "[" ++ mid ++ "]" ++ trimEnd post.
Proof.
  unfold trim. cbn [append].
  rewrite trimStart_app by reflexivity.
  replace (trimStart pre ++ String "[" (mid ++ String "]" post))
    with ((trimStart pre ++ String "[" mid) ++ String "]" post)
    by (now rewrite append_assoc).
  rewrite trimEnd_app by reflexivity.
  now rewrite append_assoc.
Qed.

Lemma restOfSpan_none (s : string) :
  occurs "]" s = false -> Regex.restOfSpan s = None.
Proof.
  induction s as [|x s IH]; simpl; [reflexivity|].
  intros Hocc. apply orb_false_iff in Hocc as [Hx Hs].
  now rewrite (IH Hs), Hx.
Qed.

Lemma restOfSpan_last (mid post : string) :
  occurs "]" post = false ->
  Regex.restOfSpan (mid ++ String "]" post) = Some (mid ++ "]").
Proof.
  intros Hpost. induction mid as [|x mid IH]; simpl.
  - now rewrite (restOfSpan_none post Hpost).
  - now rewrite IH.
Qed.

Lemma match_skip (pre s : string) :
  occurs "[" pre = false -> Regex.match_ (pre ++ s) = Regex.match_ s.
Proof.
  induction pre as [|x pre IH]; [reflexivity|].
  cbn [occurs]. intros Hocc. apply orb_false_iff in Hocc as [Hx Hpre].
  cbn [append Regex.match_ Regex.matchHere]. rewrite Hx. now apply IH.
Qed.

Lemma match_unfold (s : string) :
  Regex.match_ s =
  match Regex.matchHere s with
  | Some m => Some m
  | None => match s with
            | EmptyString => None
            | String _ r => Regex.match_ r
            end
  end.
Proof. destruct s; reflexivity. Qed.

(** The pattern finds the span from the first opening bracket to the last
    closing bracket. *)
Lemma match_span (pre mid post : string) :
  occurs "[" pre = false -> occurs "]" post = false ->
  Regex.match_ (pre ++ "[" ++ mid ++ "]" ++ post) = Some ("[" ++ mid ++ "]").
Proof.
  intros Hpre Hpost. rewrite (match_skip _ _ Hpre).
  change ("[" ++ mid ++ "]" ++ post) with (String "[" (mid ++ String "]" post)).
  rewrite match_unfold.
  change (Regex.matchHere (String "[" (mid ++ String "]" post)))
    with (option_map (String "[") (Regex.restOfSpan (mid ++ String "]" post))).
  now rewrite (restOfSpan_last mid post Hpost).
Qed.

Lemma restOfSpan_some (s m : string) :
  Regex.restOfSpan s = Some m ->
  exists mid post, s = mid ++ "]" ++ post /\ m = mid ++ "]".
Proof.
  revert m. induction s as [|x s IH]; intros m; simpl; [discriminate|].
  destruct (Regex.restOfSpan s) as [m'|].
  - intros [= <-]. destruct (IH m' eq_refl) as (mid & post & -> & ->).
    now exists (String x mid), post.
  - destruct (Ascii.eqb_spec x "]") as [->|]; [|discriminate].
    intros [= <-]. now exists "", s.
Qed.

(** A match is an array-like substring: it opens with a bracket and closes
    with one. *)
Lemma match_some (s m : string) :
  Regex.match_ s = Some m ->
  exists pre mid post, s = pre ++ "[" ++ mid ++ "]" ++ post /\ m = "[" ++ mid ++ "]".
Proof.
  induction s as [|x s IH]; [discriminate|].
  cbn [Regex.match_ Regex.matchHere].
  destruct (Ascii.eqb_spec x "[") as [->|Hx].
  - destruct (Regex.restOfSpan s) as [m'|] eqn:Hrest; cbn [option_map].
    + intros [= <-]. destruct (restOfSpan_some s Hrest) as (mid & post & -> & ->).
      now exists "", mid, post.
    + intros Hm. destruct (IH Hm) as (pre & mid & post & -> & ->).
      now exists (String "[" pre), mid, post.
  - intros Hm. destruct (IH Hm) as (pre & mid & post & -> & ->).
    now exists (String x pre), mid, post.
Qed.

Lemma restOfSpan_found (mid post : string) :
  Regex.restOfSpan (mid ++ String "]" post) <> None.
Proof.
  induction mid as [|x mid IH]; simpl.
  - destruct (Regex.restOfSpan post); discriminate.
  - destruct (Regex.restOfSpan (mid ++ String "]" post)); [discriminate | contradiction].
Qed.

(** Conversely, a text with an array-like substring has a match. *)
Lemma match_found (pre mid post : string) :
  Regex.match_ (pre ++ "[" ++ mid ++ "]" ++ post) <> None.
Proof.
  induction pre as [|x pre IH].
  - change ("" ++ "[" ++ mid ++ "]" ++ post) with (String "[" (mid ++ String "]" post)).
    rewrite match_unfold.
    change (Regex.matchHere (String "[" (mid ++ String "]" post)))
      with (option_map (String "[") (Regex.restOfSpan (mid ++ String "]" post))).
    pose proof (restOfSpan_found mid post) as Hrest.
    destruct (Regex.restOfSpan (mid ++ String "]" post)); [discriminate | contradiction].
  - change (String x pre ++ "[" ++ mid ++ "]" ++ post)
      with (String x (pre ++ "[" ++ mid ++ "]" ++ post)).
    rewrite match_unfold.
    destruct (Regex.matchHere (String x (pre ++ "[" ++ mid ++ "]" ++ post)));
      [discriminate | exact IH].
Qed.

(** ** Claims about the reply parser *)

Section ParserClaims.
Context `{JSONRuntime} `{Vendors}.

(** C3, as the code has it: when the reply is a JSON array between a
    leading prose without an opening bracket and a trailing prose without
    a closing bracket, [extractActions] of either client decodes exactly
    that array; when the reply has no substring that opens with a bracket
    and closes with one, it throws "Could not find JSON array in
    response". *)
Theorem C3_array_between_bracket_free_prose :
  (forall pre mid post items,
      occurs "[" pre = false ->
      occurs "]" post = false ->
      JSON_parse ("[" ++ mid ++ "]") = Normal (JSON.Array items) ->
      ClaudeClient.extractActions (pre ++ "[" ++ mid ++ "]" ++ post)
        = Normal (JSON.Array items)
      /\ OpenAIClient.extractActions (pre ++ "[" ++ mid ++ "]" ++ post)
        = Normal (JSON.Array items))
  /\ (forall text,
      (forall pre mid post, text <> pre ++ "[" ++ mid ++ "]" ++ post) ->
      ClaudeClient.extractActions text
        = Throw (mkError "Error" "Could not find JSON array in response")
      /\ OpenAIClient.extractActions text
        = Throw (mkError "Error" "Could not find JSON array in response")).
Proof.
  split.
  - intros pre mid post items Hpre Hpost Hparse.
    unfold ClaudeClient.extractActions, OpenAIClient.extractActions.
    rewrite trim_around_span.
    rewrite (match_span _ mid _ (occurs_trimStart _ _ Hpre) (occurs_trimEnd _ _ Hpost)).
    now split.
  - intros text Hno.
    unfold ClaudeClient.extractActions, OpenAIClient.extractActions.
    destruct (Regex.match_ (trim text)) as [m|] eqn:Hm; [exfalso | now split].
    destruct (match_some _ Hm) as (pre & mid & post & Htrim & _).
    destruct (trim_substring text) as (a & b & Htext).
    apply (Hno (a ++ pre) mid (post ++ b)).
    rewrite Htext at 1. rewrite Htrim.
    now rewrite !append_assoc.
Qed.

(** C4, as the code has it: whatever value the decoder yields for the
    bracket span is what [extractActions], and with it
    [analyzePageAndGetActions], returns; the value is not checked against
    the Action shape.  The call fails when there is no bracket span or
    when the decoder throws on it. *)
Theorem C4_decoded_value_returned_unchecked
    (context : PageContext.t) (userCommand text span : string) :
  Regex.match_ (trim text) = Some span ->
  (forall v, JSON_parse span = Normal v ->
     ClaudeClient.extractActions text = Normal v
     /\ OpenAIClient.extractActions text = Normal v
     /\ (anthropic_messages_create (PageContext.screenshot context)
           (ClaudeClient.buildUserPrompt (PageContext.url context)
              (PageContext.title context)
              (ClaudeClient.formatElements (PageContext.elements context))
              userCommand) = Normal (TextBlock text) ->
         ClaudeClient.analyzePageAndGetActions context userCommand = Normal v)
     /\ (openai_chat_completions_create (PageContext.screenshot context)
           (OpenAIClient.buildUserPrompt (PageContext.url context)
              (PageContext.title context)
              (OpenAIClient.formatElements (PageContext.elements context))
              userCommand) = Normal (Some text) ->
         OpenAIClient.analyzePageAndGetActions context userCommand = Normal v))
  /\ (forall e, JSON_parse span = Throw e ->
        ClaudeClient.extractActions text = Throw e
        /\ OpenAIClient.extractActions text = Throw e).
Proof.
  intros Hm.
  assert (Hc : ClaudeClient.extractActions text = JSON_parse span)
    by (unfold ClaudeClient.extractActions; now rewrite Hm).
  assert (Ho : OpenAIClient.extractActions text = JSON_parse span)
    by (unfold OpenAIClient.extractActions; now rewrite Hm).
  split.
  - intros v Hv. rewrite Hc, Ho, Hv. repeat split.
    + intros Hreply. unfold ClaudeClient.analyzePageAndGetActions.
      rewrite Hreply. cbn [cbind]. now rewrite Hc.
    + intros Hreply. unfold OpenAIClient.analyzePageAndGetActions.
      rewrite Hreply. cbn [cbind].
      destruct text as [|c text]; [discriminate|].
      cbn [truthy String.eqb negb]. now rewrite Ho.
  - intros e He. now rewrite Hc, Ho, He.
Qed.

(** No span at all: the other way [extractActions] fails. *)
Lemma extractActions_no_span (text : string) :
  Regex.match_ (trim text) = None ->
  ClaudeClient.extractActions text
    = Throw (mkError "Error" "Could not find JSON array in response")
  /\ OpenAIClient.extractActions text
    = Throw (mkError "Error" "Could not find JSON array in response").
Proof.
  intros Hm. unfold ClaudeClient.extractActions, OpenAIClient.extractActions.
  now rewrite Hm.
Qed.

End ParserClaims.

(** C3 as stated fails: a bracket in the leading prose widens the span,
    and the valid array after it is not what gets decoded. *)
Lemma C3_counterexample :
  let arr := SimpleVendors.waitArray in
  let reply := "Press [Enter] when done: " ++ arr in
  JSON.parse arr = Normal (JSON.Array [JSON.Object [("type", JSON.Str "wait")]])
  /\ @ClaudeClient.extractActions referenceRuntime reply = Throw JSON.syntaxError
  /\ @OpenAIClient.extractActions referenceRuntime reply = Throw JSON.syntaxError
  /\ @ClaudeClient.extractActions referenceRuntime reply <> JSON.parse arr.
Proof.
  intros arr reply. repeat split; try (vm_compute; reflexivity).
  vm_compute. discriminate.
Qed.

Lemma C3_witness :
  let pre := "Here is the plan: " in
  let mid := "{" ++ JSON.q "type" ++ ":" ++ JSON.q "wait" ++ "}" in
  let post := " Done." in
  let items := [JSON.Object [("type", JSON.Str "wait")]] in
  (occurs "[" pre = false /\ occurs "]" post = false
   /\ JSON.parse ("[" ++ mid ++ "]") = Normal (JSON.Array items))
  /\ @ClaudeClient.extractActions referenceRuntime (pre ++ "[" ++ mid ++ "]" ++ post)
     = Normal (JSON.Array items)
  /\ @ClaudeClient.extractActions referenceRuntime "no array here ] at [ all"
     = Throw (mkError "Error" "Could not find JSON array in response").
Proof.
  intros pre mid post items.
  assert (Hpre : occurs "[" pre = false) by reflexivity.
  assert (Hpost : occurs "]" post = false) by reflexivity.
  assert (Hparse : @JSON_parse referenceRuntime ("[" ++ mid ++ "]")
                   = Normal (JSON.Array items)) by reflexivity.
  split; [now repeat split|]. split.
  - exact (proj1 (proj1 (@C3_array_between_bracket_free_prose referenceRuntime)
                    pre mid post items Hpre Hpost Hparse)).
  - apply (proj2 (@C3_array_between_bracket_free_prose referenceRuntime)).
    intros a m b Heq.
    apply (match_found a m b). rewrite <- Heq. reflexivity.
Defined.

(** C4 as stated fails: the reply [{"type":"click"}] decodes to an object
    with no selector, which does not have the Action shape, and both
    clients return it instead of failing. *)
Lemma C4_counterexample :
  let reply := SimpleVendors.clickWithoutSelector in
  let v := JSON.Array [JSON.Object [("type", JSON.Str "click")]] in
  Regex.match_ (trim reply) = Some reply
  /\ JSON.parse reply = Normal v
  /\ ActionShape.conformsToActions v = false
  /\ @ClaudeClient.analyzePageAndGetActions referenceRuntime
       (SimpleVendors.replying reply) SimpleVendors.context "click it" = Normal v
  /\ @OpenAIClient.analyzePageAndGetActions referenceRuntime
       (SimpleVendors.replying reply) SimpleVendors.context "click it" = Normal v
  /\ ~ (exists e, @ClaudeClient.analyzePageAndGetActions referenceRuntime
                    (SimpleVendors.replying reply) SimpleVendors.context "click it"
                  = Throw e).
Proof.
  intros reply v.
  split; [reflexivity|]. split; [reflexivity|]. split; [reflexivity|].
  split; [reflexivity|]. split; [reflexivity|].
  intros (e & He). vm_compute in He. discriminate.
Qed.

Lemma C4_witness :
  let reply := "Sure. " ++ SimpleVendors.clickWithoutSelector in
  let span := SimpleVendors.clickWithoutSelector in
  let v := JSON.Array [JSON.Object [("type", JSON.Str "click")]] in
  Regex.match_ (trim reply) = Some span
  /\ JSON.parse span = Normal v
  /\ @ClaudeClient.extractActions referenceRuntime reply = Normal v
  /\ @OpenAIClient.analyzePageAndGetActions referenceRuntime
       (SimpleVendors.replying reply) SimpleVendors.context "click it" = Normal v.
Proof.
  intros reply span v.
  assert (Hm : Regex.match_ (trim reply) = Some span) by reflexivity.
  assert (Hv : @JSON_parse referenceRuntime span = Normal v) by reflexivity.
  destruct (@C4_decoded_value_returned_unchecked referenceRuntime
              (SimpleVendors.replying reply) SimpleVendors.context "click it"
              reply span Hm) as [Hok _].
  destruct (Hok v Hv) as (Hc & _ & _ & Ho).
  split; [exact Hm|]. split; [exact Hv|]. split; [exact Hc|].
  apply Ho. reflexivity.
Defined.

(** ** The two clients compose the same text *)

(** C8: for every element list the two clients produce the same listing,
    for every url, title, listing and command the same user prompt, and so
    for every snapshot and command the same request text. *)
Theorem C8_clients_compose_same_text :
  (forall elements : list DOMElement.t,
      ClaudeClient.formatElements elements = OpenAIClient.formatElements elements)
  /\ (forall url title elementsText userCommand : string,
        ClaudeClient.buildUserPrompt url title elementsText userCommand
        = OpenAIClient.buildUserPrompt url title elementsText userCommand)
  /\ (forall (context : PageContext.t) (userCommand : string),
        ClaudeClient.buildUserPrompt (PageContext.url context) (PageContext.title context)
          (ClaudeClient.formatElements (PageContext.elements context)) userCommand
        = OpenAIClient.buildUserPrompt (PageContext.url context) (PageContext.title context)
            (OpenAIClient.formatElements (PageContext.elements context)) userCommand).
Proof.
  assert (Hfmt : forall elements,
             ClaudeClient.formatElements elements = OpenAIClient.formatElements elements).
  { intros elements. unfold ClaudeClient.formatElements, OpenAIClient.formatElements.
    reflexivity. }
  assert (Hprompt : forall url title elementsText userCommand,
             ClaudeClient.buildUserPrompt url title elementsText userCommand
             = OpenAIClient.buildUserPrompt url title elementsText userCommand).
  { intros. unfold ClaudeClient.buildUserPrompt, OpenAIClient.buildUserPrompt.
    reflexivity. }
  split; [exact Hfmt|]. split; [exact Hprompt|].
  intros context userCommand. now rewrite Hfmt, Hprompt.
Qed.

(** The listing of the checkbox of Scenario A and of a button. *)
Example formatElements_sample :
  ClaudeClient.formatElements
    [Content.describe SimplePage.terms "#terms";
     Content.describe SimplePage.buttonA "#a"]
  = "[0] | Tag: input | Type: checkbox | Selector: #terms | ID: terms | Value: "
    ++ JSON.q "on" ++ " | Checked: false" ++ newline
    ++ "[1] | Tag: button | Selector: #a | ID: a".
Proof. reflexivity. Qed.

(** ** The orchestrator *)

Section OrchestratorClaims.
Context `{Sidepanel.Extension}.
Import Sidepanel.

Lemma captureScreenshot_returns (s : Panel) :
  captureScreenshot s =
    (Normal capturedScreenshot,
     mkPanel (aiClient s) (currentProvider s) (chatHistory s)
             (commandInput_value s) (sendBtn_disabled s) (statusText s)
             (statusBar_hidden s) (chatMessages s) (stored_history s)
             (sent s ++ [mkMessage CAPTURE_SCREENSHOT None]) (clockReads s)).
Proof.
  unfold captureScreenshot, capturedScreenshot, try_catch, bind, sendMessage, throw, ret.
  destruct (runtime_sendMessage (mkMessage CAPTURE_SCREENSHOT None)) as [response|e];
    [|reflexivity].
  destruct (resp_success response); reflexivity.
Qed.

Lemma getPageContext_returns (s : Panel) response context :
  runtime_sendMessage (mkMessage GET_PAGE_CONTEXT None) = Normal response ->
  resp_success response = true ->
  resp_context response = Some context ->
  getPageContext s =
    (Normal (Some context),
     mkPanel (aiClient s) (currentProvider s) (chatHistory s)
             (commandInput_value s) (sendBtn_disabled s) (statusText s)
             (statusBar_hidden s) (chatMessages s) (stored_history s)
             (sent s ++ [mkMessage GET_PAGE_CONTEXT None]) (clockReads s)).
Proof.
  intros Hresp Hok Hctx.
  unfold getPageContext, try_catch, bind, sendMessage, throw, ret.
  now rewrite Hresp, Hok, Hctx.
Qed.

(** C9: when the planner returns the empty list, the handler adds the
    message "I could not determine any actions to take for this command."
    after the user's, sends the page-context and screenshot requests only,
    so no EXECUTE_ACTIONS request leaves the panel, and re-enables the
    send button with the status bar hidden. *)
Theorem C9_empty_plan_skips_executor
    (s : Panel) (client : AIClient) (response : Response) (context : PageContext.t) :
  aiClient s = Some client ->
  trim (commandInput_value s) <> "" ->
  runtime_sendMessage (mkMessage GET_PAGE_CONTEXT None) = Normal response ->
  resp_success response = true ->
  resp_context response = Some context ->
  client (withScreenshot context capturedScreenshot) (trim (commandInput_value s))
    = Normal [] ->
  let command := trim (commandInput_value s) in
  let s' := snd (handleSendCommand s) in
  fst (handleSendCommand s) = Normal tt
  /\ chatMessages s'
     = (chatMessages s ++ [(user, command); (assistant, noActionsMessage)])%list
  /\ sent s'
     = (sent s ++ [mkMessage GET_PAGE_CONTEXT None;
                  mkMessage CAPTURE_SCREENSHOT None])%list
  /\ (forall m, In m (sent s') -> msg_type m = EXECUTE_ACTIONS -> In m (sent s))
  /\ sendBtn_disabled s' = false
  /\ statusBar_hidden s' = true.
Proof.
  intros Hclient Hcmd Hresp Hok Hctx Hplan command s'.
  assert (Hrun : handleSendCommand s = handleSendCommand s) by reflexivity.
  unfold handleSendCommand at 2 in Hrun.
  rewrite Hclient in Hrun. apply String.eqb_neq in Hcmd.
  rewrite Hcmd in Hrun. fold command in Hrun, Hplan.
  unfold bind at 1 2 3 4 in Hrun. unfold modify at 1 2 3 4 in Hrun.
  unfold try_finally, try_catch in Hrun.
  unfold bind at 1 in Hrun. unfold modify at 1 in Hrun.
  unfold bind at 1 in Hrun.
  erewrite getPageContext_returns in Hrun by eassumption.
  unfold bind at 1 in Hrun. unfold modify at 1 in Hrun.
  unfold bind at 1 in Hrun.
  rewrite captureScreenshot_returns in Hrun.
  unfold bind at 1 in Hrun. unfold modify at 1 in Hrun.
  unfold bind at 1 in Hrun.
  rewrite Hplan in Hrun. cbn [length Nat.eqb] in Hrun.
  unfold bind, modify in Hrun.
  unfold s'. rewrite Hrun.
  cbn [fst snd aiClient currentProvider chatHistory commandInput_value sendBtn_disabled
       statusText statusBar_hidden chatMessages stored_history sent clockReads
       showStatus hideStatus addMessage pushHistory set_sendBtn_disabled
       set_commandInput_value].
  assert (Hsent : ((sent s ++ [mkMessage GET_PAGE_CONTEXT None])
                   ++ [mkMessage CAPTURE_SCREENSHOT None])%list
                  = (sent s ++ [mkMessage GET_PAGE_CONTEXT None;
                                mkMessage CAPTURE_SCREENSHOT None])%list)
    by (now rewrite <- app_assoc).
  rewrite Hsent.
  split; [reflexivity|].
  split; [now rewrite <- app_assoc|].
  split; [reflexivity|].
  split; [|split; reflexivity].
  intros m Hin Hty. apply in_app_or in Hin as [Hin|Hin]; [exact Hin|].
  destruct Hin as [<-|[<-|[]]]; discriminate.
Qed.
End OrchestratorClaims.

(** Scenario D of the specification, through C9. *)
Lemma C9_witness :
  let s := SimpleExtension.panel " do it " in
  let s' := snd (@Sidepanel.handleSendCommand SimpleExtension.extension s) in
  (Sidepanel.aiClient s = Some SimpleExtension.idlePlanner
   /\ trim (Sidepanel.commandInput_value s) <> "")
  /\ Sidepanel.chatMessages s'
     = [(Sidepanel.user, "do it");
        (Sidepanel.assistant,
         "I could not determine any actions to take for this command.")]
  /\ Sidepanel.sent s'
     = [Sidepanel.mkMessage Sidepanel.GET_PAGE_CONTEXT None;
        Sidepanel.mkMessage Sidepanel.CAPTURE_SCREENSHOT None]
  /\ Sidepanel.sendBtn_disabled s' = false.
Proof.
  intros s s'.
  assert (Hclient : Sidepanel.aiClient s = Some SimpleExtension.idlePlanner)
    by reflexivity.
  assert (Hcmd : trim (Sidepanel.commandInput_value s) <> "") by discriminate.
  split; [now split|].
  destruct (@C9_empty_plan_skips_executor SimpleExtension.extension s
              SimpleExtension.idlePlanner
              (Sidepanel.mkResponse true None
                 (Some (PageContext.make "https://example.test/" "Example" [] None))
                 None (Some []))
              (PageContext.make "https://example.test/" "Example" [] None)
              Hclient Hcmd eq_refl eq_refl eq_refl eq_refl)
    as (_ & Hchat & Hsent & _ & Hbtn & _).
  split; [exact Hchat|]. split; [exact Hsent|]. exact Hbtn.
Defined.

(** ** Scenarios of the specification on the sample page *)

(** Scenario C: clicking [#a] removes [#b]; the fill that follows fails
    and the wait after it is never attempted. *)
Example scenario_C :
  let click_a := Action.make "click" "#a" None None in
  let fill_b := Action.make "fill" "#b" (Some "v") None in
  let wait := Action.make "wait" "" None None in
  let '(results, w') :=
    @Content.executeActions _ SimplePage.browser [click_a; fill_b; wait]
      (SimplePage.world SimplePage.sample) in
  results = Normal [ActionResult.make true click_a None;
                    ActionResult.make false fill_b (Some "Element not found: #b")]
  /\ Content.console w' = [Content.Executing click_a; Content.Executing fill_b].
Proof. vm_compute. split; reflexivity. Qed.

(** A wait succeeds even with a selector the engine cannot parse. *)
Example wait_ignores_selector :
  let wait := Action.make "wait" "div.md:flex" None None in
  fst (@Content.executeAction _ SimplePage.browser wait
         (SimplePage.world SimplePage.sample))
  = Normal (ActionResult.make true wait None).
Proof. reflexivity. Qed.

(** A page with 150 visible buttons is observed as its first 100. *)
Example observe_truncates :
  let buttons :=
    map (fun n => SimplePage.element n HTMLButtonElement "BUTTON"
                    ("b" ++ ofNat n)) (seq 0 150) in
  let p := SimplePage.make [(join "," Content.interactiveSelectors, buttons)]
                           [] [] [] "https://example.test/" "Buttons" in
  match @Content.extractPageContext _ SimplePage.browser p with
  | Normal context =>
      map DOMElement.selector (PageContext.elements context)
      = map (fun n => "#b" ++ ofNat n) (seq 0 100)
  | Throw _ => False
  end.
Proof. vm_compute. reflexivity. Qed.

(** An element hidden by its style, or one that is not an HTMLElement, is
    left out of the snapshot. *)
Example observe_skips_invisible :
  let shown := SimplePage.element 1 HTMLButtonElement "BUTTON" "shown" in
  let hidden :=
    Element.make 2 HTMLButtonElement "BUTTON" "hidden" (Some "") [] (Some "")
                 "" "" "" "" false false (mkStyle "block" "visible" "0") None in
  let svg := SimplePage.element 3 NonHTMLElement "a" "link" in
  let p := SimplePage.make [(join "," Content.interactiveSelectors, [hidden; svg; shown])]
                           [] [] [] "https://example.test/" "Mixed" in
  match @Content.extractPageContext _ SimplePage.browser p with
  | Normal context =>
      map DOMElement.selector (PageContext.elements context) = ["#shown"]
  | Throw _ => False
  end.
Proof. vm_compute. reflexivity. Qed.

(** * Further properties of the code *)

(** ** The executor, case by case *)

Section ExecutorCases.
Context {Page : Type} `{Browser Page}.
Import Content.

Ltac unfold_action :=
  unfold executeAction, bind, try_catch, console_log, sleep,
    query, act, ret, succeeded, failed; simpl.

Ltac split_action :=
  match goal with
  | |- context [Action.type ?a =? ?s] => destruct (Action.type a =? s) eqn:?
  | |- context [querySelector ?s ?p] => destruct (querySelector s p) as [[?|]|?] eqn:?
  | |- context [instanceofHTMLElement ?i] => destruct (instanceofHTMLElement i) eqn:?
  | |- context [match Element.iface ?e with _ => _ end] => destruct (Element.iface e) eqn:?
  | |- context [click ?e ?p] => destruct (click e p) as [[[]|?] ?] eqn:?
  | |- context [set_value ?e ?v ?p] => destruct (set_value e v p) as [[[]|?] ?] eqn:?
  | |- context [dispatchEvent ?e ?v ?p] => destruct (dispatchEvent e v p) as [[[]|?] ?] eqn:?
  end; simpl.

(** X1: [executeAction] never throws, whatever the page operations do,
    and its result carries an error text exactly when it is a failure. *)
Theorem X1_failure_iff_error (a : Action.t) (w : World) :
  exists r w',
    executeAction a w = (Normal r, w')
    /\ ActionResult.action r = a
    /\ (ActionResult.success r = false <-> ActionResult.error r <> None).
Proof.
  unfold_action.
  repeat split_action; eexists; eexists; (split; [reflexivity|]);
    (split; [reflexivity|]); simpl; split; congruence.
Qed.

(** X2: a fill on an input or textarea assigns the action's value (the
    empty string when it has none), then dispatches "input", then
    "change", and reports success with the page those three steps
    produced. *)
Theorem X2_fill_assigns_then_notifies
    (a : Action.t) (w : World) (el : Element.t) (p1 p2 p3 : Page) :
  Action.type a = "fill" ->
  querySelector (Action.selector a) (page w) = Normal (Some el) ->
  Element.iface el = HTMLInputElement \/ Element.iface el = HTMLTextAreaElement ->
  set_value el (match Action.value a with Some v => v | None => "" end) (page w)
    = (Normal tt, p1) ->
  dispatchEvent el "input" p1 = (Normal tt, p2) ->
  dispatchEvent el "change" p2 = (Normal tt, p3) ->
  executeAction a w =
    (Normal (ActionResult.make true a None),
     mkWorld p3 (console w ++ [Executing a])).
Proof.
  intros Hty Hq Hif Hset Hin Hch.
  unfold_action. rewrite Hty. simpl. rewrite Hq. simpl.
  destruct Hif as [Hif|Hif]; rewrite Hif; simpl;
    rewrite Hset; simpl; rewrite Hin; simpl; rewrite Hch; reflexivity.
Qed.

(** X3: an element of the wrong kind is a failure that leaves the page
    untouched: "Element is not an HTMLElement" for any action but wait on
    an element that is no HTMLElement, "Element is not an input or
    textarea" for a fill on any other HTMLElement. *)
Theorem X3_wrong_kind_fails_untouched (a : Action.t) (w : World) (el : Element.t) :
  Action.type a <> "wait" ->
  querySelector (Action.selector a) (page w) = Normal (Some el) ->
  (instanceofHTMLElement (Element.iface el) = false ->
   executeAction a w =
     (Normal (ActionResult.make false a
                (Some ("Element is not an HTMLElement: " ++ Action.selector a))),
      mkWorld (page w) (console w ++ [Executing a])))
  /\ (Action.type a = "fill" ->
      instanceofHTMLElement (Element.iface el) = true ->
      Element.iface el <> HTMLInputElement ->
      Element.iface el <> HTMLTextAreaElement ->
      executeAction a w =
        (Normal (ActionResult.make false a
                   (Some ("Element is not an input or textarea: " ++ Action.selector a))),
         mkWorld (page w) (console w ++ [Executing a]))).
Proof.
  intros Hw Hq. apply String.eqb_neq in Hw. split.
  - intros Hi. unfold_action. rewrite Hw. simpl. rewrite Hq. simpl.
    rewrite Hi. reflexivity.
  - intros Hty Hi Hn1 Hn2. unfold_action. rewrite Hw. simpl. rewrite Hq. simpl.
    rewrite Hi, Hty. simpl.
    destruct (Element.iface el); try reflexivity; congruence.
Qed.

(** X4: when the selector engine throws on the action's selector, the
    error is caught: the result is a failure carrying [String(error)],
    the page is untouched and the batch stops there. *)
Theorem X4_selector_error_is_caught
    (a : Action.t) (rest : list Action.t) (w : World) (e : Error) :
  Action.type a <> "wait" ->
  querySelector (Action.selector a) (page w) = Throw e ->
  let r := ActionResult.make false a (Some (String_ e)) in
  let w' := mkWorld (page w) (console w ++ [Executing a]) in
  executeAction a w = (Normal r, w')
  /\ executeActions (a :: rest) w = (Normal [r], w').
Proof.
  intros Hw Hq r w'. apply String.eqb_neq in Hw.
  assert (He : executeAction a w = (Normal r, w')).
  { unfold_action. rewrite Hw. simpl. rewrite Hq. reflexivity. }
  split; [exact He|].
  unfold executeActions. change [r] with ([] ++ [r])%list.
  eapply for_of_failure; [exact He | reflexivity].
Qed.

(** X5: a click on a resolved HTMLElement reports success as soon as the
    click returns, with whatever page the click left; when the click
    throws, the result is a failure carrying the error, on the page the
    click left. *)
Theorem X5_click_reports_what_click_did
    (a : Action.t) (w : World) (el : Element.t) (c : completion unit) (p' : Page) :
  Action.type a = "click" ->
  querySelector (Action.selector a) (page w) = Normal (Some el) ->
  instanceofHTMLElement (Element.iface el) = true ->
  click el (page w) = (c, p') ->
  executeAction a w =
    (Normal match c with
            | Normal _ => ActionResult.make true a None
            | Throw e => ActionResult.make false a (Some (String_ e))
            end,
     mkWorld p' (console w ++ [Executing a])).
Proof.
  intros Hty Hq Hi Hc.
  unfold_action. rewrite Hty. simpl. rewrite Hq. simpl. rewrite Hi. simpl.
  rewrite Hc. destruct c; reflexivity.
Qed.

(** The results so far only prefix what the loop returns. *)
Lemma for_of_acc (actions : list Action.t) :
  forall acc (w : World),
    for_of actions acc w =
      match for_of actions [] w with
      | (Normal rs, w') => (Normal (acc ++ rs)%list, w')
      | (Throw e, w') => (Throw e, w')
      end.
Proof.
  induction actions as [|a rest IH]; intros acc w.
  - simpl. unfold ret. now rewrite app_nil_r.
  - destruct (executeAction_total a w) as (r & w2 & He & _ & _).
    destruct (ActionResult.success r) eqn:Hs.
    + rewrite (@for_of_success _ _ a rest acc w w2 r He Hs).
      rewrite (@for_of_success _ _ a rest [] w w2 r He Hs).
      rewrite (IH (acc ++ [r])%list), (IH ([] ++ [r])%list).
      destruct (for_of rest [] (mkWorld (setTimeout 500 (page w2)) (console w2)))
        as [[rs|e] w']; [|reflexivity].
      simpl. now rewrite <- app_assoc.
    + rewrite (@for_of_failure _ _ a rest acc w w2 r He Hs).
      rewrite (@for_of_failure _ _ a rest [] w w2 r He Hs).
      reflexivity.
Qed.

(** X6: batches compose: when every action of a first batch succeeded,
    running it followed by a second batch gives the results of the first
    followed by those of the second run on the page the first one left
    (its closing delay included). *)
Theorem X6_batches_compose
    (pre post : list Action.t) (w w1 w2 : World) (rs1 rs2 : list ActionResult.t) :
  executeActions pre w = (Normal rs1, w1) ->
  forallb ActionResult.success rs1 = true ->
  executeActions post w1 = (Normal rs2, w2) ->
  executeActions (pre ++ post) w = (Normal (rs1 ++ rs2)%list, w2).
Proof.
  unfold executeActions. intros Hpre Hall Hpost.
  assert (Hgen : forall pre acc w rs1,
             for_of pre acc w = (Normal (acc ++ rs1)%list, w1) ->
             forallb ActionResult.success rs1 = true ->
             for_of (pre ++ post) acc w = (Normal ((acc ++ rs1) ++ rs2)%list, w2)).
  { clear pre w rs1 Hpre Hall.
    induction pre as [|a rest IH]; intros acc w rs1 Hpre Hall.
    - simpl in Hpre. unfold ret in Hpre. injection Hpre as Hacc <-.
      simpl. rewrite for_of_acc, Hpost.
      assert (rs1 = []) as ->.
      { apply (f_equal (@length _)) in Hacc. rewrite length_app in Hacc.
        destruct rs1; [reflexivity | simpl in Hacc; lia]. }
      now rewrite app_nil_r.
    - destruct (executeAction_total a w) as (r & w3 & He & _ & _).
      destruct (ActionResult.success r) eqn:Hs.
      + simpl app. rewrite (@for_of_success _ _ a (rest ++ post) acc w w3 r He Hs).
        rewrite (@for_of_success _ _ a rest acc w w3 r He Hs) in Hpre.
        set (w4 := mkWorld (setTimeout 500 (page w3)) (console w3)) in *.
        destruct (for_of_stops rest (acc ++ [r])%list w4) as (rs & w5 & Hrs & _).
        rewrite Hrs in Hpre. injection Hpre as Heq <-.
        rewrite <- app_assoc in Heq. apply app_inv_head in Heq. subst rs1.
        simpl in Hall. apply andb_true_iff in Hall as [_ Hall].
        rewrite (IH (acc ++ [r])%list w4 rs Hrs Hall).
        now rewrite <- !app_assoc.
      + rewrite (@for_of_failure _ _ a rest acc w w3 r He Hs) in Hpre.
        injection Hpre as Heq <-. apply app_inv_head in Heq. subst rs1.
        simpl in Hall. rewrite Hs in Hall. discriminate. }
  apply (Hgen pre [] w rs1); assumption.
Qed.

End ExecutorCases.

Lemma X2_witness :
  let a := Action.make "fill" "#terms" (Some "yes") None in
  let w := SimplePage.world SimplePage.sample in
  let p := SimplePage.make (SimplePage.matches SimplePage.sample) ["div.md:flex"]
             [(2, "#b")] [(1, "yes")] "https://example.test/form" "Form" in
  (Action.type a = "fill"
   /\ @querySelector _ SimplePage.browser "#terms" SimplePage.sample
      = Normal (Some SimplePage.terms))
  /\ @Content.executeAction _ SimplePage.browser a w
     = (Normal (ActionResult.make true a None),
        Content.mkWorld p [Content.Executing a]).
Proof.
  intros a w p.
  split; [split; reflexivity|].
  apply (@X2_fill_assigns_then_notifies _ SimplePage.browser a w SimplePage.terms p p p).
  - reflexivity.
  - reflexivity.
  - left; reflexivity.
  - reflexivity.
  - reflexivity.
  - reflexivity.
Defined.

Lemma X3_witness :
  let fill_a := Action.make "fill" "#a" (Some "x") None in
  let click_icon := Action.make "click" "#icon" None None in
  @Content.executeAction _ SimplePage.browser fill_a (SimplePage.world SimplePage.sample)
    = (Normal (ActionResult.make false fill_a
                 (Some "Element is not an input or textarea: #a")),
       Content.mkWorld SimplePage.sample [Content.Executing fill_a])
  /\ @Content.executeAction _ SimplePage.browser click_icon
       (SimplePage.world SimplePage2.withIcon)
    = (Normal (ActionResult.make false click_icon
                 (Some "Element is not an HTMLElement: #icon")),
       Content.mkWorld SimplePage2.withIcon [Content.Executing click_icon]).
Proof.
  intros fill_a click_icon. split.
  - assert (Hw : Action.type fill_a <> "wait") by discriminate.
    apply (proj2 (@X3_wrong_kind_fails_untouched _ SimplePage.browser fill_a
                    (SimplePage.world SimplePage.sample) SimplePage.buttonA
                    Hw eq_refl)).
    + reflexivity.
    + reflexivity.
    + discriminate.
    + discriminate.
  - assert (Hw : Action.type click_icon <> "wait") by discriminate.
    apply (proj1 (@X3_wrong_kind_fails_untouched _ SimplePage.browser click_icon
                    (SimplePage.world SimplePage2.withIcon) SimplePage2.icon
                    Hw eq_refl)).
    reflexivity.
Defined.

Lemma X4_witness :
  let a := Action.make "click" "div.md:flex" None None in
  let w := SimplePage.world SimplePage.sample in
  Action.type a <> "wait"
  /\ @Content.executeActions _ SimplePage.browser
       [a; Action.make "click" "#a" None None] w
     = (Normal [ActionResult.make false a
                  (Some "SyntaxError: 'div.md:flex' is not a valid selector.")],
        Content.mkWorld SimplePage.sample [Content.Executing a]).
Proof.
  intros a w.
  assert (Hw : Action.type a <> "wait") by discriminate.
  split; [exact Hw|].
  exact (proj2 (@X4_selector_error_is_caught _ SimplePage.browser a
                  [Action.make "click" "#a" None None] w
                  (mkError "SyntaxError" "'div.md:flex' is not a valid selector.")
                  Hw eq_refl)).
Defined.

Lemma X5_witness :
  let a := Action.make "click" "#a" None None in
  let w := SimplePage.world SimplePage.sample in
  let p := SimplePage.make [("#terms", [SimplePage.terms]); ("#a", [SimplePage.buttonA])]
             ["div.md:flex"] [(2, "#b")] [] "https://example.test/form" "Form" in
  Action.type a = "click"
  /\ @Content.executeAction _ SimplePage.browser a w
     = (Normal (ActionResult.make true a None),
        Content.mkWorld p [Content.Executing a]).
Proof.
  intros a w p.
  split; [reflexivity|].
  exact (@X5_click_reports_what_click_did _ SimplePage.browser a w SimplePage.buttonA
           (Normal tt) p eq_refl eq_refl eq_refl eq_refl).
Defined.

Lemma X6_witness :
  let click_terms := Action.make "click" "#terms" None None in
  let fill_missing := Action.make "fill" "#missing" (Some "x") None in
  let w := SimplePage.world SimplePage.sample in
  let w1 := Content.mkWorld SimplePage.sample [Content.Executing click_terms] in
  let w2 := Content.mkWorld SimplePage.sample
              [Content.Executing click_terms; Content.Executing fill_missing] in
  let r1 := ActionResult.make true click_terms None in
  let r2 := ActionResult.make false fill_missing (Some "Element not found: #missing") in
  (@Content.executeActions _ SimplePage.browser [click_terms] w = (Normal [r1], w1)
   /\ @Content.executeActions _ SimplePage.browser [fill_missing] w1 = (Normal [r2], w2))
  /\ @Content.executeActions _ SimplePage.browser [click_terms; fill_missing] w
     = (Normal [r1; r2], w2).
Proof.
  intros click_terms fill_missing w w1 w2 r1 r2.
  split; [split; reflexivity|].
  exact (@X6_batches_compose _ SimplePage.browser [click_terms] [fill_missing]
           w w1 w2 [r1] [r2] eq_refl eq_refl eq_refl).
Defined.

(** ** The lower rules of the selector synthesizer *)



Section SelectorRules.
Context {Page : Type} `{Browser Page}.
Import Content.

(** X7: an element without id whose name attribute is not empty gets
    [[name="<name>"]], with the name copied as it is and without a look at
    the page. *)
Theorem X7_name_rule (el : Element.t) (p : Page) (n : string) :
  Element.id el = "" ->
  Element.getAttribute el "name" = Some n ->
  n <> "" ->
  getSelector el p = Normal ("[name=" ++ dquote ++ n ++ dquote ++ "]").
Proof.
  intros Hid Hname Hn. unfold getSelector. rewrite Hid, Hname. simpl.
  destruct n; [contradiction | reflexivity].
Qed.

Lemma classSelector_unique (el : Element.t) (p : Page) (sel : string) :
  classSelector el p = Normal (Some sel) ->
  exists only, querySelectorAll sel p = Normal [only].
Proof.
  unfold classSelector.
  destruct (Element.className el) as [cn|]; [|discriminate].
  destruct (cn =? ""); [discriminate|].
  destruct (0 <? length _)%nat; [|discriminate].
  match goal with
  | |- context [querySelectorAll ?s p] =>
      destruct (querySelectorAll s p) as [[|x [|y l]]|] eqn:Hq
  end; cbn [cbind length Nat.eqb]; try discriminate.
  intros [= <-]. now exists x.
Qed.

Lemma placeholderSelector_unique (el : Element.t) (p : Page) (sel : string) :
  placeholderSelector el p = Normal (Some sel) ->
  exists only, querySelectorAll sel p = Normal [only].
Proof.
  unfold placeholderSelector.
  destruct (Element.getAttribute el "placeholder") as [ph|]; [|discriminate].
  destruct (ph =? ""); [discriminate|].
  match goal with
  | |- context [querySelectorAll ?s p] =>
      destruct (querySelectorAll s p) as [[|x [|y l]]|] eqn:Hq
  end; cbn [cbind length Nat.eqb]; try discriminate.
  intros [= <-]. now exists x.
Qed.

(** X8: for an element without id and without a usable name, a selector
    that [getSelector] returns either matches exactly one element of the
    page at that moment, or is the nth-of-type fallback. *)
Theorem X8_class_and_placeholder_selectors_are_unique
    (el : Element.t) (p : Page) (sel : string) :
  Element.id el = "" ->
  truthy (Element.getAttribute el "name") = false ->
  getSelector el p = Normal sel ->
  (exists only, querySelectorAll sel p = Normal [only])
  \/ sel = nthOfTypeSelector el.
Proof.
  intros Hid Hname. unfold getSelector. rewrite Hid. cbn [String.eqb negb].
  assert (Hrest :
    (byClass <-- classSelector el p ;;
     match byClass with
     | Some selector => Normal selector
     | None =>
         byPlaceholder <-- placeholderSelector el p ;;
         match byPlaceholder with
         | Some selector => Normal selector
         | None => Normal (nthOfTypeSelector el)
         end
     end) = Normal sel ->
    (exists only, querySelectorAll sel p = Normal [only])
    \/ sel = nthOfTypeSelector el).
  { destruct (classSelector el p) as [[s|]|e] eqn:Hc; cbn [cbind]; [| |discriminate].
    - intros [= <-]. left. now apply classSelector_unique with el.
    - destruct (placeholderSelector el p) as [[s|]|e] eqn:Hp; cbn [cbind];
        [| |discriminate].
      + intros [= <-]. left. now apply placeholderSelector_unique with el.
      + intros [= <-]. now right. }
  destruct (Element.getAttribute el "name") as [[|c n]|]; try discriminate;
    exact Hrest.
Qed.


End SelectorRules.

Lemma X7_witness :
  let el := Element.make 7 HTMLInputElement "INPUT" "" (Some "field")
              [("type", "text"); ("name", "email")]
              (Some "") "text" "email" "" "" false false
              SimplePage.visibleStyle None in
  (Element.id el = "" /\ Element.getAttribute el "name" = Some "email")
  /\ @Content.getSelector _ SimplePage.browser el SimplePage.sample
     = Normal ("[name=" ++ dquote ++ "email" ++ dquote ++ "]").
Proof.
  intros el.
  assert (Hn : "email" <> "") by discriminate.
  split; [split; reflexivity|].
  exact (@X7_name_rule _ SimplePage.browser el SimplePage.sample "email"
           eq_refl eq_refl Hn).
Defined.

Lemma X8_witness :
  let el := Element.make 9 HTMLOtherElement "DIV" "" (Some " card  wide ") []
              None "" "" "" "" false false SimplePage.visibleStyle
              (Some [(8, "DIV"); (9, "DIV")]) in
  let p := SimplePage.make [("div.card.wide", [el])] [] [] [] "https://example.test/" "Cards" in
  @Content.getSelector _ SimplePage.browser el p = Normal "div.card.wide"
  /\ ((exists only, @querySelectorAll _ SimplePage.browser "div.card.wide" p = Normal [only])
      \/ "div.card.wide" = Content.nthOfTypeSelector el).
Proof.
  intros el p.
  split; [reflexivity|].
  exact (@X8_class_and_placeholder_selectors_are_unique _ SimplePage.browser el p
           "div.card.wide" eq_refl eq_refl eq_refl).
Defined.


(** ** What a snapshot holds *)

Lemma substring_length (n : nat) (s : string) :
  String.length (substring 0 n s) <= n.
Proof.
  revert s. induction n as [|n IH]; intros [|c s]; simpl; try lia.
  specialize (IH s). lia.
Qed.

Lemma or_undefined_not_empty (s : string) : or_undefined s <> Some "".
Proof.
  unfold or_undefined. destruct (String.eqb_spec s ""); congruence.
Qed.

(** X10: in a descriptor the optional texts id, className, text,
    placeholder, name and value are never the empty string (an empty one
    is left undefined), the text is at most 100 characters long, and the
    tag is the element's tag name in lower case. *)
Theorem X10_descriptor_fields (el : Element.t) (selector : string) :
  let d := Content.describe el selector in
  DOMElement.selector d = selector
  /\ DOMElement.tag d = toLowerCase (Element.tagName el)
  /\ DOMElement.id d <> Some ""
  /\ DOMElement.className d <> Some ""
  /\ DOMElement.text d <> Some ""
  /\ DOMElement.placeholder d <> Some ""
  /\ DOMElement.name d <> Some ""
  /\ DOMElement.value d <> Some ""
  /\ (forall t, DOMElement.text d = Some t -> String.length t <= 100).
Proof.
  intros d. subst d. unfold Content.describe.
  assert (Hcls : match Element.className el with
                 | Some c => or_undefined c
                 | None => None
                 end <> Some "")
    by (destruct (Element.className el); [apply or_undefined_not_empty | discriminate]).
  assert (Htxt : match Element.textContent el with
                 | Some t => or_undefined (substring 0 100 (trim t))
                 | None => None
                 end <> Some "")
    by (destruct (Element.textContent el); [apply or_undefined_not_empty | discriminate]).
  assert (Hlen : forall t,
             match Element.textContent el with
             | Some t => or_undefined (substring 0 100 (trim t))
             | None => None
             end = Some t -> String.length t <= 100).
  { intros t. destruct (Element.textContent el) as [t0|]; [|discriminate].
    unfold or_undefined. destruct (_ =? ""); [discriminate|].
    intros [= <-]. apply substring_length. }
  destruct (Element.iface el); cbn [DOMElement.selector DOMElement.tag DOMElement.id
    DOMElement.className DOMElement.text DOMElement.placeholder DOMElement.name
    DOMElement.value];
    repeat split; try assumption; try apply or_undefined_not_empty; discriminate.
Qed.

(** X11: the state of a form control is reported only where the code
    reads it: [checked] and [type] exactly for input elements (a cleared
    checkbox included), [disabled] exactly for input, textarea, button and
    select elements, and nothing of name, placeholder and value for any
    other element. *)
Theorem X11_form_control_extras (el : Element.t) (selector : string) :
  let d := Content.describe el selector in
  (DOMElement.checked d <> None <-> Element.iface el = HTMLInputElement)
  /\ (DOMElement.type d <> None <-> Element.iface el = HTMLInputElement)
  /\ (DOMElement.checked d <> None ->
      DOMElement.checked d = Some (Element.checked el))
  /\ (DOMElement.disabled d <> None <->
      (Element.iface el = HTMLInputElement \/ Element.iface el = HTMLTextAreaElement
       \/ Element.iface el = HTMLButtonElement \/ Element.iface el = HTMLSelectElement))
  /\ (Element.iface el = HTMLOtherElement ->
      DOMElement.name d = None /\ DOMElement.placeholder d = None
      /\ DOMElement.value d = None).
Proof.
  intros d. subst d. unfold Content.describe.
  destruct (Element.iface el);
    cbn [DOMElement.checked DOMElement.type DOMElement.disabled DOMElement.name
         DOMElement.placeholder DOMElement.value];
    repeat split; intros; try congruence; try discriminate;
    try (intuition congruence); auto.
Qed.

Section SnapshotSize.
Context {Page : Type} `{Browser Page}.
Import Content.

(** X12: a snapshot holds exactly as many descriptors as the page query
    found retained elements, up to 100, with the page's URL and title and
    no screenshot. *)
Theorem X12_snapshot_size (p : Page) (context : PageContext.t) :
  extractPageContext p = Normal context ->
  exists foundElements,
    querySelectorAll (join "," interactiveSelectors) p = Normal foundElements
    /\ length (PageContext.elements context)
       = Nat.min 100 (length (filter retained foundElements))
    /\ PageContext.url context = location_href p
    /\ PageContext.title context = document_title p
    /\ PageContext.screenshot context = None.
Proof.
  unfold extractPageContext.
  destruct (querySelectorAll (join "," interactiveSelectors) p)
    as [foundElements|e] eqn:Hfound; cbn [cbind]; [|discriminate].
  pose proof (forEach_spec foundElements p []) as Hspec.
  destruct (forEach foundElements [] p) as [elements|e]; cbn [cbind]; [|discriminate].
  destruct Hspec as (pushed & -> & Hall). cbn [app].
  remember (firstn 100 pushed) as kept eqn:Hkept.
  intros [= <-]. exists foundElements.
  cbn [PageContext.elements PageContext.url PageContext.title PageContext.screenshot].
  repeat split.
  rewrite Hkept, length_firstn. now rewrite (Forall2_length Hall).
Qed.

End SnapshotSize.

Lemma X12_witness :
  let buttons :=
    map (fun n => SimplePage.element n HTMLButtonElement "BUTTON" ("b" ++ ofNat n))
        (seq 0 3) in
  let p := SimplePage.make [(join "," Content.interactiveSelectors, buttons)]
                           [] [] [] "https://example.test/" "Buttons" in
  exists context,
    @Content.extractPageContext _ SimplePage.browser p = Normal context
    /\ length (PageContext.elements context) = 3
    /\ PageContext.url context = "https://example.test/".
Proof.
  intros buttons p.
  destruct (@Content.extractPageContext _ SimplePage.browser p) as [context|e] eqn:He;
    [|discriminate He].
  exists context. split; [reflexivity|].
  destruct (@X12_snapshot_size _ SimplePage.browser p context He)
    as (found & Hfound & Hlen & Hurl & _).
  injection Hfound as <-.
  split; [exact Hlen | exact Hurl].
Defined.

(** ** The element listing *)

Lemma nth_error_mapi_from {A B} (f : A -> nat -> B) (xs : list A) :
  forall k i,
    nth_error (mapi_from k f xs) i = option_map (fun x => f x (k + i)) (nth_error xs i).
Proof.
  induction xs as [|x xs IH]; intros k [|i]; simpl; try reflexivity.
  - now rewrite Nat.add_0_r.
  - rewrite IH. now rewrite Nat.add_succ_r.
Qed.

Lemma length_mapi_from {A B} (f : A -> nat -> B) (xs : list A) :
  forall k, length (mapi_from k f xs) = length xs.
Proof. induction xs as [|x xs IH]; intros k; simpl; [reflexivity | now rewrite IH]. Qed.

Lemma join_cons_prefix (sep x : string) (l : list string) :
  exists rest, join sep (x :: l) = x ++ rest.
Proof.
  destruct l as [|y l]; simpl.
  - exists "". now rewrite append_nil_r.
  - now eexists.
Qed.

(** X13: the listing has one entry per element, in order, joined by line
    breaks; the entry of the element at index i starts with
    "[i] | Tag: <tag>", whatever other fields it has. *)
Theorem X13_listing_entries (elements : list DOMElement.t) :
  exists entries,
    ClaudeClient.formatElements elements = join newline entries
    /\ OpenAIClient.formatElements elements = join newline entries
    /\ length entries = length elements
    /\ forall i el,
         nth_error elements i = Some el ->
         exists rest,
           nth_error entries i
           = Some ("[" ++ ofNat i ++ "] | Tag: " ++ DOMElement.tag el ++ rest).
Proof.
  unfold ClaudeClient.formatElements, OpenAIClient.formatElements, mapi.
  eexists. split; [reflexivity|]. split; [reflexivity|].
  split; [apply length_mapi_from|].
  intros i el Hel. rewrite nth_error_mapi_from, Hel. cbn [option_map Nat.add].
  match goal with
  | |- context [filterBoolean (Some ?a :: Some ?b :: ?tl)] =>
      change (filterBoolean (Some a :: Some b :: tl))
        with (a :: b :: filterBoolean tl);
      destruct (join_cons_prefix " | " b (filterBoolean tl)) as (rest & Hrest);
      change (join " | " (a :: b :: filterBoolean tl))
        with (a ++ " | " ++ join " | " (b :: filterBoolean tl));
      rewrite Hrest
  end.
  exists rest. f_equal. cbn [append]. rewrite !append_assoc. reflexivity.
Qed.

(** ** The bracket span, exactly *)

Lemma restOfSpan_none_inv (s : string) :
  Regex.restOfSpan s = None -> occurs "]" s = false.
Proof.
  induction s as [|x s IH]; simpl; [reflexivity|].
  destruct (Regex.restOfSpan s); [discriminate|].
  destruct (Ascii.eqb x "]"); [discriminate|].
  intros _. now rewrite IH.
Qed.

Lemma restOfSpan_greedy (s m : string) :
  Regex.restOfSpan s = Some m ->
  exists mid post, s = mid ++ "]" ++ post /\ m = mid ++ "]" /\ occurs "]" post = false.
Proof.
  revert m. induction s as [|x s IH]; intros m; simpl; [discriminate|].
  destruct (Regex.restOfSpan s) as [m'|] eqn:Hrest.
  - intros [= <-]. destruct (IH m' eq_refl) as (mid & post & -> & -> & Hpost).
    now exists (String x mid), post.
  - destruct (Ascii.eqb_spec x "]") as [->|]; [|discriminate].
    intros [= <-]. exists "", s. repeat split. now apply restOfSpan_none_inv.
Qed.

Lemma match_needs_close (s : string) :
  occurs "]" s = false -> Regex.match_ s = None.
Proof.
  induction s as [|x s IH]; [reflexivity|].
  cbn [occurs]. intros Hocc. apply orb_false_iff in Hocc as [Hx Hs].
  rewrite match_unfold. cbn [Regex.matchHere].
  rewrite (restOfSpan_none s Hs).
  destruct (Ascii.eqb x "["); cbn [option_map]; now apply IH.
Qed.

Lemma match_leftmost_greedy (s m : string) :
  Regex.match_ s = Some m ->
  exists pre mid post,
    s = pre ++ m ++ post /\ m = "[" ++ mid ++ "]"
    /\ occurs "[" pre = false /\ occurs "]" post = false.
Proof.
  induction s as [|x s IH]; [discriminate|].
  rewrite match_unfold. cbn [Regex.matchHere].
  destruct (Ascii.eqb_spec x "[") as [->|Hx].
  - destruct (Regex.restOfSpan s) as [m'|] eqn:Hrest; cbn [option_map].
    + intros [= <-].
      destruct (restOfSpan_greedy s Hrest) as (mid & post & -> & -> & Hpost).
      exists "", mid, post. repeat split; [|exact Hpost].
      cbn [append]. now rewrite append_assoc.
    + intros Hm. rewrite (match_needs_close s (restOfSpan_none_inv s Hrest)) in Hm.
      discriminate.
  - intros Hm. destruct (IH Hm) as (pre & mid & post & -> & -> & Hpre & Hpost).
    exists (String x pre), mid, post. repeat split; [|exact Hpost].
    cbn [occurs]. rewrite Hpre.
    destruct (Ascii.eqb_spec x "["); [contradiction | reflexivity].
Qed.

(** X14: the pattern of [extractActions] matches exactly the part of the
    text from its first opening bracket to its last closing bracket, and it
    matches nothing in the trimmed reply exactly when the reply has no
    closing bracket after an opening one. *)
Theorem X14_span_is_first_to_last_bracket :
  (forall s m,
      Regex.match_ s = Some m <->
      exists pre mid post,
        s = pre ++ m ++ post /\ m = "[" ++ mid ++ "]"
        /\ occurs "[" pre = false /\ occurs "]" post = false)
  /\ (forall text,
        Regex.match_ (trim text) = None <->
        forall pre mid post, text <> pre ++ "[" ++ mid ++ "]" ++ post).
Proof.
  split.
  - intros s m. split; [apply match_leftmost_greedy|].
    intros (pre & mid & post & -> & -> & Hpre & Hpost).
    rewrite <- (match_span pre mid post Hpre Hpost).
    f_equal. f_equal. now rewrite !append_assoc.
  - intros text. split.
    + intros Hnone pre mid post ->.
      rewrite trim_around_span in Hnone.
      now apply (match_found (trimStart pre) mid (trimEnd post)).
    + intros Hno. destruct (Regex.match_ (trim text)) as [m|] eqn:Hm; [exfalso | reflexivity].
      destruct (match_some _ Hm) as (pre & mid & post & Htrim & _).
      destruct (trim_substring text) as (a & b & Htext).
      apply (Hno (a ++ pre) mid (post ++ b)).
      rewrite Htext at 1. rewrite Htrim. now rewrite !append_assoc.
Qed.

(** ** What the decoder makes of a bracket span *)

Section DecoderFacts.
Import JSON DecoderInvariant.








End DecoderFacts.



(** ** The clients around the parser *)

Section ClientFacts.
Context `{JSONRuntime} `{Vendors}.

(** X16: a fault of the vendor call reaches the caller unchanged, from
    each of the three client classes; a Claude answer whose first block is
    not text, and an OpenAI answer without content or with an empty one,
    fail before any parsing. *)
Theorem X16_vendor_faults_reach_the_caller
    (context : PageContext.t) (userCommand : string) :
  let prompt :=
    ClaudeClient.buildUserPrompt (PageContext.url context) (PageContext.title context)
      (ClaudeClient.formatElements (PageContext.elements context)) userCommand in
  let claude := anthropic_messages_create (PageContext.screenshot context) prompt in
  let openai := openai_chat_completions_create (PageContext.screenshot context) prompt in
  (forall e, claude = Throw e ->
     ClaudeClient.analyzePageAndGetActions context userCommand = Throw e
     /\ ClaudeClientStandalone.analyzePageAndGetActions context userCommand = Throw e)
  /\ (forall e, openai = Throw e ->
        OpenAIClient.analyzePageAndGetActions context userCommand = Throw e)
  /\ (forall type, claude = Normal (OtherBlock type) ->
        ClaudeClient.analyzePageAndGetActions context userCommand
        = Throw (mkError "Error" "Unexpected response type from Claude"))
  /\ (openai = Normal None \/ openai = Normal (Some "") ->
        OpenAIClient.analyzePageAndGetActions context userCommand
        = Throw (mkError "Error" "No response from OpenAI")).
Proof.
  intros prompt claude openai.
  unfold ClaudeClient.analyzePageAndGetActions,
    ClaudeClientStandalone.analyzePageAndGetActions,
    OpenAIClient.analyzePageAndGetActions.
  fold prompt. fold claude.
  change (openai_chat_completions_create (PageContext.screenshot context) _)
    with openai.
  change (anthropic_messages_create (PageContext.screenshot context) _) with claude.
  split; [intros e He; rewrite He; now split|].
  split; [intros e He; now rewrite He|].
  split; [intros type He; now rewrite He|].
  intros [He | He]; now rewrite He.
Qed.

(** X17: the stand-alone Claude client and the Claude client of
    [ai-client.ts] send the same request and return the same result;
    they differ only in the message of the error for a reply without a
    bracket span. *)
Theorem X17_standalone_client_agrees
    (context : PageContext.t) (userCommand : string) :
  ClaudeClientStandalone.analyzePageAndGetActions context userCommand
  = ClaudeClient.analyzePageAndGetActions context userCommand
  \/ (ClaudeClientStandalone.analyzePageAndGetActions context userCommand
      = Throw (mkError "Error" "Could not find JSON array in Claude response")
      /\ ClaudeClient.analyzePageAndGetActions context userCommand
         = Throw (mkError "Error" "Could not find JSON array in response")).
Proof.
  unfold ClaudeClient.analyzePageAndGetActions,
    ClaudeClientStandalone.analyzePageAndGetActions, ClaudeClient.extractActions.
  change (anthropic_messages_create (PageContext.screenshot context) _)
    with (anthropic_messages_create (PageContext.screenshot context)
            (ClaudeClient.buildUserPrompt (PageContext.url context)
               (PageContext.title context)
               (ClaudeClient.formatElements (PageContext.elements context))
               userCommand)).
  destruct (anthropic_messages_create _ _) as [[text|type]|e]; cbn [cbind];
    [|now left|now left].
  destruct (Regex.match_ (trim text)); [now left | right; now split].
Qed.

End ClientFacts.

Lemma X16_witness :
  @ClaudeClient.analyzePageAndGetActions referenceRuntime
     (FailingVendors.failing FailingVendors.rateLimited) SimpleVendors.context "go"
  = Throw FailingVendors.rateLimited
  /\ @OpenAIClient.analyzePageAndGetActions referenceRuntime
       (FailingVendors.failing FailingVendors.rateLimited) SimpleVendors.context "go"
     = Throw FailingVendors.rateLimited.
Proof.
  pose proof (@X16_vendor_faults_reach_the_caller referenceRuntime
                (FailingVendors.failing FailingVendors.rateLimited)
                SimpleVendors.context "go") as (Hc & Ho & _).
  split.
  - exact (proj1 (Hc FailingVendors.rateLimited eq_refl)).
  - exact (Ho FailingVendors.rateLimited eq_refl).
Defined.

(** ** The command handler on every path *)

Section HandlerPaths.
Context `{Sidepanel.Extension}.
Import Sidepanel PanelOrder.

Ltac extends_tac :=
  unfold Extends; cbn; repeat split;
  try (exists []; now rewrite app_nil_r); try (now eexists).

Lemma Extends_refl (s : Panel) : Extends s s.
Proof.
  repeat split; try (exists []; now rewrite app_nil_r).
Qed.

Lemma Extends_trans (s1 s2 s3 : Panel) :
  Extends s1 s2 -> Extends s2 s3 -> Extends s1 s3.
Proof.
  intros (Ha & Hp & Hc & (m1 & Hm) & (h1 & Hh) & (t1 & Ht))
         (Ha' & Hp' & Hc' & (m2 & Hm') & (h2 & Hh') & (t2 & Ht')).
  repeat split; try congruence.
  - exists (m1 ++ m2)%list. now rewrite Hm', Hm, app_assoc.
  - exists (h1 ++ h2)%list. now rewrite Hh', Hh, app_assoc.
  - exists (t1 ++ t2)%list. now rewrite Ht', Ht, app_assoc.
Qed.

Lemma Extending_ret {A} (a : A) : Extending (ret a).
Proof. intros s. apply Extends_refl. Qed.

Lemma Extending_throw {A} (e : Error) : Extending (@throw Panel A e).
Proof. intros s. apply Extends_refl. Qed.

Lemma Extending_pure {A} (c : completion A) : Extending (fun s : Panel => (c, s)).
Proof. intros s. apply Extends_refl. Qed.

Lemma Extending_bind {A B} (m : Eff Panel A) (k : A -> Eff Panel B) :
  Extending m -> (forall a, Extending (k a)) -> Extending (bind m k).
Proof.
  intros Hm Hk s. unfold bind. specialize (Hm s).
  destruct (m s) as [[a|e] s1]; cbn [snd] in *; [|exact Hm].
  apply (Extends_trans Hm). apply Hk.
Qed.

Lemma Extending_try_catch {A} (m : Eff Panel A) (handler : Error -> Eff Panel A) :
  Extending m -> (forall e, Extending (handler e)) -> Extending (try_catch m handler).
Proof.
  intros Hm Hh s. unfold try_catch. specialize (Hm s).
  destruct (m s) as [[a|e] s1]; cbn [snd] in *; [exact Hm|].
  apply (Extends_trans Hm). apply Hh.
Qed.

Lemma Extending_modify (f : Panel -> Panel) :
  (forall s, Extends s (f s)) -> Extending (modify f).
Proof. intros Hf s. apply Hf. Qed.

Lemma Extends_showStatus text (s : Panel) : Extends s (showStatus text s).
Proof. extends_tac. Qed.

Lemma Extends_hideStatus (s : Panel) : Extends s (hideStatus s).
Proof. extends_tac. Qed.

Lemma Extends_set_sendBtn_disabled b (s : Panel) : Extends s (set_sendBtn_disabled b s).
Proof. extends_tac. Qed.

Lemma Extends_addMessage r text (s : Panel) : Extends s (addMessage r text s).
Proof.
  repeat split; try (exists []; now rewrite app_nil_r). now eexists.
Qed.

Lemma Extends_pushHistory r text (s : Panel) : Extends s (pushHistory r text s).
Proof.
  repeat split; try (exists []; now rewrite app_nil_r). now eexists.
Qed.

Lemma Extending_sendMessage (message : Message) : Extending (sendMessage message).
Proof.
  intros s. repeat split; try (exists []; now rewrite app_nil_r). now eexists.
Qed.

Lemma Extending_getPageContext : Extending getPageContext.
Proof.
  apply Extending_try_catch.
  - apply Extending_bind; [apply Extending_sendMessage|].
    intros response. destruct (negb (resp_success response));
      [apply Extending_throw | apply Extending_ret].
  - intros e. apply Extending_bind; [|intros; apply Extending_ret].
    apply Extending_modify. intros s. apply Extends_addMessage.
Qed.

Lemma Extending_captureScreenshot : Extending captureScreenshot.
Proof.
  apply Extending_try_catch.
  - apply Extending_bind; [apply Extending_sendMessage|].
    intros response. destruct (negb (resp_success response));
      [apply Extending_throw | apply Extending_ret].
  - intros e. apply Extending_ret.
Qed.

Lemma Extending_executeActions actions : Extending (executeActions actions).
Proof.
  apply Extending_try_catch.
  - apply Extending_bind; [apply Extending_sendMessage|].
    intros response. destruct (negb (resp_success response));
      [apply Extending_throw | apply Extending_ret].
  - intros e. apply Extending_bind; [|intros; apply Extending_ret].
    apply Extending_modify. intros s. apply Extends_addMessage.
Qed.

Lemma Extending_saveChatHistory : Extending saveChatHistory.
Proof. apply Extending_modify. intros s. extends_tac. Qed.

Ltac extend_step :=
  first
    [ apply Extending_bind; [|intros]
    | apply Extending_getPageContext
    | apply Extending_captureScreenshot
    | apply Extending_executeActions
    | apply Extending_saveChatHistory
    | apply Extending_throw
    | apply Extending_pure
    | apply Extending_modify; intros;
      first [ apply Extends_showStatus | apply Extends_hideStatus
            | apply Extends_set_sendBtn_disabled | apply Extends_addMessage
            | apply Extends_pushHistory ]
    | match goal with
      | |- Extending (match ?x with _ => _ end) => destruct x
      | |- Extending (if ?b then _ else _) => destruct b
      end ].

Lemma try_catch_settles (m : Eff Panel unit) (handler : Error -> Eff Panel unit) :
  (forall e s, fst (handler e s) = Normal tt) ->
  forall s, fst (try_catch m handler s) = Normal tt.
Proof.
  intros Hh s. unfold try_catch.
  destruct (m s) as [[[]|e] s1]; [reflexivity | apply Hh].
Qed.

(** X18: with a client and a command that is not blank, the handler
    never throws and always ends with the send button enabled, the status
    bar hidden and the command input cleared; the user's command is the
    first thing it adds to the chat and to the history, and it only ever
    adds to the chat, the history and the requests sent. *)
Theorem X18_handler_always_settles (s : Panel) (client : AIClient) :
  aiClient s = Some client ->
  trim (commandInput_value s) <> "" ->
  let command := trim (commandInput_value s) in
  exists s',
    handleSendCommand s = (Normal tt, s')
    /\ sendBtn_disabled s' = false
    /\ statusBar_hidden s' = true
    /\ commandInput_value s' = ""
    /\ aiClient s' = aiClient s
    /\ (exists more, chatMessages s' = (chatMessages s ++ (user, command) :: more)%list)
    /\ (exists more,
          chatHistory s'
          = (chatHistory s ++ mkChat user command (Date_now (clockReads s)) :: more)%list)
    /\ (exists more, sent s' = (sent s ++ more)%list).
Proof.
  intros Hclient Hcmd command.
  unfold handleSendCommand. rewrite Hclient.
  apply String.eqb_neq in Hcmd. rewrite Hcmd. fold command.
  unfold bind at 1 2 3 4. unfold modify at 1 2 3 4.
  set (s1 := pushHistory user command
               (addMessage user command
                  (set_sendBtn_disabled true (set_commandInput_value "" s)))).
  unfold try_finally.
  match goal with
  | |- context [try_catch ?body ?handler s1] =>
      assert (Hext : Extending (try_catch body handler));
      [ apply Extending_try_catch;
        [ repeat extend_step
        | intros e; apply Extending_modify; intros s0; apply Extends_addMessage ]
      | pose proof (try_catch_settles body handler (fun e s0 => eq_refl) s1) as Hfst;
        specialize (Hext s1);
        destruct (try_catch body handler s1) as [c s2] ]
  end.
  cbn [fst snd] in *. subst c.
  destruct Hext as (Ha & _ & Hc & (m & Hm) & (h & Hh) & (t & Ht)).
  eexists. split; [reflexivity|].
  cbn [sendBtn_disabled statusBar_hidden commandInput_value aiClient chatMessages
       chatHistory sent hideStatus set_sendBtn_disabled].
  split; [reflexivity|]. split; [reflexivity|].
  split; [rewrite Hc; reflexivity|].
  split; [rewrite Ha; subst s1; cbn; now rewrite Hclient|].
  split; [exists m; rewrite Hm; subst s1; cbn; now rewrite <- app_assoc|].
  split; [exists h; rewrite Hh; subst s1; cbn; now rewrite <- app_assoc|].
  exists t. rewrite Ht. reflexivity.
Qed.

End HandlerPaths.

Section HandlerOutcomes.
Context `{Sidepanel.Extension}.
Import Sidepanel.

Ltac run_handler :=
  cbv beta iota zeta delta
    [handleSendCommand bind modify try_finally try_catch getPageContext
     captureScreenshot executeActions sendMessage throw ret saveChatHistory
     addErrorMessage fst snd negb].

Ltac panel_fields :=
  cbv beta iota zeta delta
    [aiClient currentProvider chatHistory commandInput_value sendBtn_disabled
     statusText statusBar_hidden chatMessages stored_history sent clockReads
     showStatus hideStatus addMessage pushHistory set_sendBtn_disabled
     set_commandInput_value fst snd].

(** X19: when the page cannot be reached (the relay throws, or answers
    without success), the handler shows "Failed to access page: <error>"
    after the user's command and stops: only the page-context request was
    sent, nothing is planned, executed or saved. *)
Theorem X19_unreachable_page_stops_the_command
    (s : Panel) (client : AIClient) (err : Error) :
  aiClient s = Some client ->
  trim (commandInput_value s) <> "" ->
  (runtime_sendMessage (mkMessage GET_PAGE_CONTEXT None) = Throw err
   \/ exists response,
        runtime_sendMessage (mkMessage GET_PAGE_CONTEXT None) = Normal response
        /\ resp_success response = false
        /\ err = mkError "Error" (errorOr response "Failed to get page context")) ->
  let command := trim (commandInput_value s) in
  let s' := snd (handleSendCommand s) in
  chatMessages s'
    = (chatMessages s ++ [(user, command);
                          (error, ("Failed to access page: " ++ String_ err)%string)])%list
  /\ sent s' = (sent s ++ [mkMessage GET_PAGE_CONTEXT None])%list
  /\ chatHistory s'
     = (chatHistory s ++ [mkChat user command (Date_now (clockReads s))])%list
  /\ stored_history s' = stored_history s
  /\ sendBtn_disabled s' = false.
Proof.
  intros Hclient Hcmd Hfail command s'. subst s'.
  apply String.eqb_neq in Hcmd.
  run_handler. rewrite Hclient, Hcmd. fold command.
  destruct Hfail as [Hthrow | (response & Hresp & Hok & ->)].
  - panel_fields. rewrite Hthrow. panel_fields.
    repeat split. now rewrite <- app_assoc.
  - panel_fields. rewrite Hresp. cbv beta iota. rewrite Hok. panel_fields.
    repeat split. now rewrite <- app_assoc.
Qed.

(** X20: when the planner fails (a vendor fault or a reply that cannot be
    parsed), the handler shows "Error: <error>" after the user's command;
    the page-context and screenshot requests were sent, nothing is
    executed and nothing is saved. *)
Theorem X20_planner_failure_is_reported
    (s : Panel) (client : AIClient) (response : Response) (context : PageContext.t)
    (e : Error) :
  aiClient s = Some client ->
  trim (commandInput_value s) <> "" ->
  runtime_sendMessage (mkMessage GET_PAGE_CONTEXT None) = Normal response ->
  resp_success response = true ->
  resp_context response = Some context ->
  client (withScreenshot context capturedScreenshot) (trim (commandInput_value s))
    = Throw e ->
  let command := trim (commandInput_value s) in
  let s' := snd (handleSendCommand s) in
  chatMessages s'
    = (chatMessages s ++ [(user, command); (error, ("Error: " ++ String_ e)%string)])%list
  /\ sent s'
     = (sent s ++ [mkMessage GET_PAGE_CONTEXT None;
                  mkMessage CAPTURE_SCREENSHOT None])%list
  /\ stored_history s' = stored_history s
  /\ sendBtn_disabled s' = false
  /\ statusBar_hidden s' = true.
Proof.
  intros Hclient Hcmd Hresp Hok Hctx Hplan command s'. subst s'.
  apply String.eqb_neq in Hcmd. unfold capturedScreenshot in Hplan.
  run_handler. rewrite Hclient, Hcmd. fold command in Hplan |- *.
  panel_fields. rewrite Hresp. cbv beta iota. rewrite Hok, Hctx. panel_fields.
  destruct (runtime_sendMessage (mkMessage CAPTURE_SCREENSHOT None)) as [shot|e'];
    [destruct (resp_success shot)|];
    cbv beta iota; rewrite Hplan; panel_fields;
    repeat split; rewrite <- !app_assoc; reflexivity.
Qed.

(** The handler on the path where a plan is executed. *)
Lemma handler_runs_plan
    (s : Panel) (client : AIClient) (response answer : Response)
    (context : PageContext.t) (actions : list Action.t)
    (results : list ActionResult.t) :
  aiClient s = Some client ->
  trim (commandInput_value s) <> "" ->
  runtime_sendMessage (mkMessage GET_PAGE_CONTEXT None) = Normal response ->
  resp_success response = true ->
  resp_context response = Some context ->
  client (withScreenshot context capturedScreenshot) (trim (commandInput_value s))
    = Normal actions ->
  actions <> [] ->
  runtime_sendMessage (mkMessage EXECUTE_ACTIONS (Some actions)) = Normal answer ->
  resp_success answer = true ->
  resp_results answer = Some results ->
  let command := trim (commandInput_value s) in
  let s' := snd (handleSendCommand s) in
  let history :=
    (chatHistory s
     ++ [mkChat user command (Date_now (clockReads s));
         mkChat assistant (resultMessage results) (Date_now (S (clockReads s)))])%list in
  chatMessages s'
    = (chatMessages s
       ++ [(user, command);
           (assistant,
            ("I will perform these actions:<br>"
             ++ join "<br>" (mapi (fun a i => ofNat (i + 1) ++ ". " ++ label a) actions))%string);
           (assistant, resultMessage results)])%list
  /\ sent s'
     = (sent s ++ [mkMessage GET_PAGE_CONTEXT None;
                  mkMessage CAPTURE_SCREENSHOT None;
                  mkMessage EXECUTE_ACTIONS (Some actions)])%list
  /\ chatHistory s' = history
  /\ stored_history s' = Some (skipn (length history - 50) history)
  /\ sendBtn_disabled s' = false.
Proof.
  intros Hclient Hcmd Hresp Hok Hctx Hplan Hne Hexec Hsucc Hres command s' history.
  subst s' history.
  apply String.eqb_neq in Hcmd. unfold capturedScreenshot in Hplan.
  assert (Hlen : (length actions =? 0)%nat = false)
    by (destruct actions; [contradiction | reflexivity]).
  run_handler. rewrite Hclient, Hcmd. fold command in Hplan |- *.
  panel_fields. rewrite Hresp. cbv beta iota. rewrite Hok, Hctx. panel_fields.
  destruct (runtime_sendMessage (mkMessage CAPTURE_SCREENSHOT None)) as [shot|e'];
    [destruct (resp_success shot)|];
    cbv beta iota; rewrite Hplan; cbv beta iota; rewrite Hlen;
    panel_fields; rewrite Hexec; cbv beta iota; rewrite Hsucc, Hres; panel_fields;
    repeat split; rewrite <- !app_assoc; reflexivity.
Qed.

(** X21: with a plan that is not empty and an answer from the relay, the
    handler announces the plan, sends one EXECUTE_ACTIONS request carrying
    exactly the planned actions, and shows the summary of the results it
    got back; the user's command and the summary, but not the
    announcement, enter the history, of which the last 50 entries are
    saved. *)
Theorem X21_plan_is_executed_and_summarised
    (s : Panel) (client : AIClient) (response answer : Response)
    (context : PageContext.t) (actions : list Action.t)
    (results : list ActionResult.t) :
  aiClient s = Some client ->
  trim (commandInput_value s) <> "" ->
  runtime_sendMessage (mkMessage GET_PAGE_CONTEXT None) = Normal response ->
  resp_success response = true ->
  resp_context response = Some context ->
  client (withScreenshot context capturedScreenshot) (trim (commandInput_value s))
    = Normal actions ->
  actions <> [] ->
  runtime_sendMessage (mkMessage EXECUTE_ACTIONS (Some actions)) = Normal answer ->
  resp_success answer = true ->
  resp_results answer = Some results ->
  let command := trim (commandInput_value s) in
  let s' := snd (handleSendCommand s) in
  let history :=
    (chatHistory s
     ++ [mkChat user command (Date_now (clockReads s));
         mkChat assistant (resultMessage results) (Date_now (S (clockReads s)))])%list in
  chatMessages s'
    = (chatMessages s
       ++ [(user, command);
           (assistant,
            ("I will perform these actions:<br>"
             ++ join "<br>" (mapi (fun a i => ofNat (i + 1) ++ ". " ++ label a) actions))%string);
           (assistant, resultMessage results)])%list
  /\ sent s'
     = (sent s ++ [mkMessage GET_PAGE_CONTEXT None;
                  mkMessage CAPTURE_SCREENSHOT None;
                  mkMessage EXECUTE_ACTIONS (Some actions)])%list
  /\ chatHistory s' = history
  /\ stored_history s' = Some (skipn (length history - 50) history)
  /\ sendBtn_disabled s' = false.
Proof.
  intros Hclient Hcmd Hresp Hok Hctx Hplan Hne Hexec Hsucc Hres.
  eapply handler_runs_plan; eassumption.
Qed.

(** X22: when the relay fails on the EXECUTE_ACTIONS request, the handler
    shows "Failed to execute actions: <error>" and then, having taken the
    results to be empty, still reports "Completed 0 of 0 actions. All
    actions completed successfully!". *)
Theorem X22_failed_execution_is_summarised_as_success
    (s : Panel) (client : AIClient) (response : Response)
    (context : PageContext.t) (actions : list Action.t) (err : Error) :
  aiClient s = Some client ->
  trim (commandInput_value s) <> "" ->
  runtime_sendMessage (mkMessage GET_PAGE_CONTEXT None) = Normal response ->
  resp_success response = true ->
  resp_context response = Some context ->
  client (withScreenshot context capturedScreenshot) (trim (commandInput_value s))
    = Normal actions ->
  actions <> [] ->
  (runtime_sendMessage (mkMessage EXECUTE_ACTIONS (Some actions)) = Throw err
   \/ exists answer,
        runtime_sendMessage (mkMessage EXECUTE_ACTIONS (Some actions)) = Normal answer
        /\ resp_success answer = false
        /\ err = mkError "Error" (errorOr answer "Failed to execute actions")) ->
  let command := trim (commandInput_value s) in
  let s' := snd (handleSendCommand s) in
  chatMessages s'
    = (chatMessages s
       ++ [(user, command);
           (assistant,
            ("I will perform these actions:<br>"
             ++ join "<br>" (mapi (fun a i => ofNat (i + 1) ++ ". " ++ label a) actions))%string);
           (error, ("Failed to execute actions: " ++ String_ err)%string);
           (assistant,
            "Completed 0 of 0 actions. All actions completed successfully!")])%list.
Proof.
  intros Hclient Hcmd Hresp Hok Hctx Hplan Hne Hexec command s'.
  subst s'.
  apply String.eqb_neq in Hcmd. unfold capturedScreenshot in Hplan.
  assert (Hlen : (length actions =? 0)%nat = false)
    by (destruct actions; [contradiction | reflexivity]).
  run_handler. rewrite Hclient, Hcmd. fold command in Hplan |- *.
  panel_fields. rewrite Hresp. cbv beta iota. rewrite Hok, Hctx. panel_fields.
  destruct Hexec as [Hthrow | (answer & Hans & Hfail & ->)];
    destruct (runtime_sendMessage (mkMessage CAPTURE_SCREENSHOT None)) as [shot|e'];
    try destruct (resp_success shot);
    cbv beta iota; rewrite Hplan; cbv beta iota; rewrite Hlen; panel_fields;
    first [ rewrite Hthrow | rewrite Hans; cbv beta iota; rewrite Hfail ];
    panel_fields; rewrite <- !app_assoc; reflexivity.
Qed.

(** X23: [saveChatHistory] stores the last 50 entries of the history, all
    of it when it has no more than 50, and changes nothing else. *)
Theorem X23_saved_history_is_the_last_50 (s : Panel) :
  exists saved older,
    saveChatHistory s
    = (Normal tt,
       mkPanel (aiClient s) (currentProvider s) (chatHistory s)
               (commandInput_value s) (sendBtn_disabled s) (statusText s)
               (statusBar_hidden s) (chatMessages s) (Some saved)
               (sent s) (clockReads s))
    /\ chatHistory s = (older ++ saved)%list
    /\ length saved = Nat.min 50 (length (chatHistory s)).
Proof.
  exists (skipn (length (chatHistory s) - 50) (chatHistory s)),
         (firstn (length (chatHistory s) - 50) (chatHistory s)).
  split; [reflexivity|]. split.
  - now rewrite firstn_skipn.
  - rewrite length_skipn. lia.
Qed.

End HandlerOutcomes.

Lemma X18_witness :
  let s := SimpleExtension.panel " do it " in
  exists s',
    @Sidepanel.handleSendCommand SimpleExtension.extension s = (Normal tt, s')
    /\ Sidepanel.sendBtn_disabled s' = false
    /\ Sidepanel.statusBar_hidden s' = true
    /\ Sidepanel.commandInput_value s' = "".
Proof.
  intros s.
  assert (Hcmd : trim (Sidepanel.commandInput_value s) <> "") by discriminate.
  destruct (@X18_handler_always_settles SimpleExtension.extension s
              SimpleExtension.idlePlanner eq_refl Hcmd)
    as (s' & Hrun & Hbtn & Hbar & Hin & _).
  exists s'. repeat split; assumption.
Defined.

Lemma X19_witness :
  let E := ScriptedExtension.extension ScriptedExtension.refused ScriptedExtension.noShot
             ScriptedExtension.noShot in
  let s := ScriptedExtension.panel (ScriptedExtension.planner (Normal [])) "click ok" in
  let s' := snd (@Sidepanel.handleSendCommand E s) in
  Sidepanel.chatMessages s'
  = [(Sidepanel.user, "click ok");
     (Sidepanel.error,
      "Failed to access page: Error: Cannot access this page. Content scripts cannot run on browser system pages.")]
  /\ Sidepanel.sent s' = [Sidepanel.mkMessage Sidepanel.GET_PAGE_CONTEXT None].
Proof.
  intros E s s'.
  assert (Hcmd : trim (Sidepanel.commandInput_value s) <> "") by discriminate.
  destruct (@X19_unreachable_page_stops_the_command E s
              (ScriptedExtension.planner (Normal []))
              (mkError "Error"
                 "Cannot access this page. Content scripts cannot run on browser system pages.")
              eq_refl Hcmd)
    as (Hchat & Hsent & _).
  - right. eexists. split; [reflexivity|]. split; reflexivity.
  - split; [exact Hchat | exact Hsent].
Defined.

Lemma X20_witness :
  let E := ScriptedExtension.extension ScriptedExtension.pageOk ScriptedExtension.noShot
             ScriptedExtension.noShot in
  let client := ScriptedExtension.planner (Throw FailingVendors.rateLimited) in
  let s := ScriptedExtension.panel client "click ok" in
  let s' := snd (@Sidepanel.handleSendCommand E s) in
  Sidepanel.chatMessages s'
  = [(Sidepanel.user, "click ok");
     (Sidepanel.error, "Error: Error: 429 rate limit exceeded")]
  /\ Sidepanel.sent s'
     = [Sidepanel.mkMessage Sidepanel.GET_PAGE_CONTEXT None;
        Sidepanel.mkMessage Sidepanel.CAPTURE_SCREENSHOT None].
Proof.
  intros E client s s'.
  assert (Hcmd : trim (Sidepanel.commandInput_value s) <> "") by discriminate.
  destruct (@X20_planner_failure_is_reported E s client
              (Sidepanel.mkResponse true None (Some ScriptedExtension.emptyPage) None None)
              ScriptedExtension.emptyPage FailingVendors.rateLimited
              eq_refl Hcmd eq_refl eq_refl eq_refl eq_refl)
    as (Hchat & Hsent & _).
  split; [exact Hchat | exact Hsent].
Defined.

Lemma X21_witness :
  let a := ScriptedExtension.clickOk in
  let results := [ActionResult.make true a None] in
  let answer := Sidepanel.mkResponse true None None None (Some results) in
  let E := ScriptedExtension.extension ScriptedExtension.pageOk ScriptedExtension.noShot
             (Normal answer) in
  let client := ScriptedExtension.planner (Normal [a]) in
  let s := ScriptedExtension.panel client "click ok" in
  let s' := snd (@Sidepanel.handleSendCommand E s) in
  Sidepanel.chatMessages s'
  = [(Sidepanel.user, "click ok");
     (Sidepanel.assistant, "I will perform these actions:<br>1. Click OK");
     (Sidepanel.assistant,
      "Completed 1 of 1 actions. All actions completed successfully!")]
  /\ Sidepanel.sent s'
     = [Sidepanel.mkMessage Sidepanel.GET_PAGE_CONTEXT None;
        Sidepanel.mkMessage Sidepanel.CAPTURE_SCREENSHOT None;
        Sidepanel.mkMessage Sidepanel.EXECUTE_ACTIONS (Some [a])].
Proof.
  intros a results answer E client s s'.
  assert (Hcmd : trim (Sidepanel.commandInput_value s) <> "") by discriminate.
  assert (Hne : [a] <> []) by discriminate.
  destruct (@X21_plan_is_executed_and_summarised E s client
              (Sidepanel.mkResponse true None (Some ScriptedExtension.emptyPage) None None)
              answer ScriptedExtension.emptyPage [a] results
              eq_refl Hcmd eq_refl eq_refl eq_refl eq_refl Hne eq_refl eq_refl eq_refl)
    as (Hchat & Hsent & _).
  split; [exact Hchat | exact Hsent].
Defined.

Lemma X22_witness :
  let a := ScriptedExtension.clickOk in
  let E := ScriptedExtension.extension ScriptedExtension.pageOk ScriptedExtension.noShot
             (Throw (mkError "Error" "Could not establish connection.")) in
  let client := ScriptedExtension.planner (Normal [a]) in
  let s := ScriptedExtension.panel client "click ok" in
  Sidepanel.chatMessages (snd (@Sidepanel.handleSendCommand E s))
  = [(Sidepanel.user, "click ok");
     (Sidepanel.assistant, "I will perform these actions:<br>1. Click OK");
     (Sidepanel.error,
      "Failed to execute actions: Error: Could not establish connection.");
     (Sidepanel.assistant,
      "Completed 0 of 0 actions. All actions completed successfully!")].
Proof.
  intros a E client s.
  assert (Hcmd : trim (Sidepanel.commandInput_value s) <> "") by discriminate.
  assert (Hne : [a] <> []) by discriminate.
  apply (@X22_failed_execution_is_summarised_as_success E s client
           (Sidepanel.mkResponse true None (Some ScriptedExtension.emptyPage) None None)
           ScriptedExtension.emptyPage [a]
           (mkError "Error" "Could not establish connection.")
           eq_refl Hcmd eq_refl eq_refl eq_refl eq_refl Hne).
  left. reflexivity.
Defined.


(** ** The background worker *)



Section WorkerFacts.
Context `{Background.Chrome}.
Import Sidepanel Background.

(** X24: a request for the page context or for execution is refused with
    "Cannot access this page..." when the active tab has no URL or one
    that starts with chrome://, chrome-extension://, edge:// or about:,
    whatever the content script would have answered; without an active tab
    every request is refused with "No active tab found". *)
Theorem X24_system_pages_are_refused (message : Message) :
  (forall tab id,
      msg_type message = GET_PAGE_CONTEXT \/ msg_type message = EXECUTE_ACTIONS ->
      hd_error tabs_query = Some tab ->
      tab_id tab = Some (S id) ->
      (tab_url tab = None
       \/ exists u, tab_url tab = Some u
                    /\ (prefix "chrome://" u = true
                        \/ prefix "chrome-extension://" u = true
                        \/ prefix "edge://" u = true
                        \/ prefix "about:" u = true
                        \/ u = "")) ->
      onMessage message
      = Some (failure (Some
          "Cannot access this page. Content scripts cannot run on browser system pages.")))
  /\ (tabs_query = [] ->
      msg_type message = GET_PAGE_CONTEXT \/ msg_type message = EXECUTE_ACTIONS
      \/ msg_type message = CAPTURE_SCREENSHOT ->
      onMessage message = Some (failure (Some "No active tab found"))).
Proof.
  split.
  - intros tab id Hty Htab Hid Hurl.
    assert (Hrelay : relay message
              = Some (failure (Some
                  "Cannot access this page. Content scripts cannot run on browser system pages."))).
    { unfold relay. rewrite Htab. cbn [truthyId]. rewrite Hid.
      destruct Hurl as [-> | (u & -> & Hu)]; [reflexivity|].
      unfold systemPage.
      destruct Hu as [-> | [-> | [-> | [-> | ->]]]];
        rewrite ?orb_true_r; reflexivity. }
    unfold onMessage. destruct Hty as [-> | ->]; exact Hrelay.
  - intros Hnone Hty. unfold onMessage, relay, capture. rewrite Hnone.
    destruct Hty as [-> | [-> | ->]]; reflexivity.
Qed.

(** X25: on an ordinary page whose content script answers the ping, or
    can be injected, the worker passes the content script's response on
    unchanged, and a delivery error as a failure with its message; when
    the script can neither be pinged nor injected the request is refused
    with "Cannot inject content script...". *)
Theorem X25_relay_is_transparent (message : Message) (tab : Tab) (id : nat) (u : string) :
  msg_type message = GET_PAGE_CONTEXT \/ msg_type message = EXECUTE_ACTIONS ->
  hd_error tabs_query = Some tab ->
  tab_id tab = Some (S id) ->
  tab_url tab = Some u ->
  systemPage u = false ->
  ((exists ok, tabs_ping (S id) = Normal ok)
   \/ (exists ok, scripting_executeScript (S id) = Normal ok) ->
   onMessage message
   = match tabs_sendMessage (S id) message with
     | Delivered response => response
     | LastError m => Some (failure m)
     end)
  /\ ((exists e, tabs_ping (S id) = Throw e) ->
      (exists e, scripting_executeScript (S id) = Throw e) ->
      onMessage message
      = Some (failure (Some
          "Cannot inject content script. This page may be protected or restricted."))).
Proof.
  intros Hty Htab Hid Hurl Hsys.
  assert (Hon : onMessage message = relay message)
    by (unfold onMessage; destruct Hty as [-> | ->]; reflexivity).
  rewrite Hon. unfold relay. rewrite Htab. cbn [truthyId]. rewrite Hid, Hurl, Hsys.
  unfold ensureContentScriptLoaded. split.
  - intros [(ok & Hping) | (ok & Hinj)].
    + rewrite Hping. cbn [negb].
      destruct (tabs_sendMessage (S id) message); reflexivity.
    + rewrite Hinj. destruct (tabs_ping (S id)); cbn [negb];
        destruct (tabs_sendMessage (S id) message); reflexivity.
  - intros (e & Hping) (e' & Hinj). now rewrite Hping, Hinj.
Qed.


End WorkerFacts.

Lemma X24_witness :
  @Background.onMessage (SimpleChrome.chrome SimpleChrome.settingsTab)
     (Sidepanel.mkMessage Sidepanel.GET_PAGE_CONTEXT None)
  = Some (Background.failure (Some
      "Cannot access this page. Content scripts cannot run on browser system pages.")).
Proof.
  apply (proj1 (@X24_system_pages_are_refused
                  (SimpleChrome.chrome SimpleChrome.settingsTab)
                  (Sidepanel.mkMessage Sidepanel.GET_PAGE_CONTEXT None))
           SimpleChrome.settingsTab 7).
  - left. reflexivity.
  - reflexivity.
  - reflexivity.
  - right. exists "chrome://settings/". split; [reflexivity|]. left. reflexivity.
Defined.

Lemma X25_witness :
  let a := Action.make "fill" "#missing" (Some "x") None in
  @Background.onMessage (SimpleChrome.chrome SimpleChrome.tab)
     (Sidepanel.mkMessage Sidepanel.EXECUTE_ACTIONS (Some [a]))
  = Some (Sidepanel.mkResponse true None None None
            (Some [ActionResult.make false a (Some "Element not found: #missing")])).
Proof.
  intros a.
  assert (Hsys : Background.systemPage "https://example.test/form" = false)
    by reflexivity.
  apply (proj1 (@X25_relay_is_transparent (SimpleChrome.chrome SimpleChrome.tab)
                  (Sidepanel.mkMessage Sidepanel.EXECUTE_ACTIONS (Some [a]))
                  SimpleChrome.tab 6 "https://example.test/form"
                  (or_intror eq_refl) eq_refl eq_refl eq_refl Hsys)).
  left. exists tt. reflexivity.
Defined.


(** ** Saving the settings *)



(** ** The summary of a batch *)

Lemma stops_shape actions results :
  Content.StopsAtFirstFailure actions results ->
  (forallb ActionResult.success results = true /\ length results = length actions)
  \/ exists oks r,
       results = (oks ++ [r])%list
       /\ forallb ActionResult.success oks = true
       /\ ActionResult.success r = false.
Proof.
  induction 1 as [|a rest r Ha Hs|a rest r rs Ha Hs Hrun IH].
  - left. now split.
  - right. exists [], r. now repeat split.
  - destruct IH as [[Hall Hlen] | (oks & r' & -> & Hall & Hf)].
    + left. simpl. rewrite Hs, Hall, Hlen. now split.
    + right. exists (r :: oks), r'. simpl. rewrite Hs, Hall. now repeat split.
Qed.

Lemma filter_success_app (oks : list ActionResult.t) (r : ActionResult.t) :
  forallb ActionResult.success oks = true ->
  ActionResult.success r = false ->
  filter ActionResult.success (oks ++ [r]) = oks
  /\ filter (fun x => negb (ActionResult.success x)) (oks ++ [r]) = [r].
Proof.
  intros Hall Hf. induction oks as [|o oks IH]; simpl.
  - now rewrite Hf.
  - simpl in Hall. apply andb_true_iff in Hall as [Ho Hall].
    destruct (IH Hall) as [IH1 IH2]. rewrite Ho. simpl. now rewrite IH1, IH2.
Qed.

Section BatchErrors.
Context {Page : Type} `{Browser Page}.
Import Content.

Lemma executeAction_failure_has_error (a : Action.t) (w : World) :
  exists r w',
    executeAction a w = (Normal r, w')
    /\ (ActionResult.success r = false -> exists e, ActionResult.error r = Some e).
Proof.
  unfold executeAction, bind, try_catch, console_log, sleep,
    query, act, ret, succeeded, failed; simpl.
  repeat (match goal with
          | |- context [Action.type ?a =? ?s] => destruct (Action.type a =? s) eqn:?
          | |- context [querySelector ?s ?p] =>
              destruct (querySelector s p) as [[?|]|?] eqn:?
          | |- context [instanceofHTMLElement ?i] =>
              destruct (instanceofHTMLElement i) eqn:?
          | |- context [match Element.iface ?e with _ => _ end] =>
              destruct (Element.iface e) eqn:?
          | |- context [click ?e ?p] => destruct (click e p) as [[[]|?] ?] eqn:?
          | |- context [set_value ?e ?v ?p] =>
              destruct (set_value e v p) as [[[]|?] ?] eqn:?
          | |- context [dispatchEvent ?e ?v ?p] =>
              destruct (dispatchEvent e v p) as [[[]|?] ?] eqn:?
          end; simpl);
    eexists; eexists; (split; [reflexivity|]); simpl; intros Hs;
    solve [ discriminate Hs | eexists; reflexivity ].
Qed.

Lemma for_of_errors (actions : list Action.t) :
  forall acc (w : World),
  exists rs w',
    for_of actions acc w = (Normal (acc ++ rs)%list, w')
    /\ Forall (fun r => ActionResult.success r = false ->
                        exists e, ActionResult.error r = Some e) rs.
Proof.
  induction actions as [|a rest IH]; intros acc w.
  - exists [], w. simpl. rewrite app_nil_r. split; [reflexivity | constructor].
  - destruct (executeAction_failure_has_error a w) as (r & w1 & He & Herr).
    destruct (ActionResult.success r) eqn:Hs.
    + destruct (IH (acc ++ [r])%list (mkWorld (setTimeout 500 (page w1)) (console w1)))
        as (rs & w2 & Hf & Hall).
      exists (r :: rs), w2. split.
      * rewrite (@for_of_success _ _ a rest acc w w1 r He Hs), Hf, <- app_assoc.
        reflexivity.
      * constructor; [intros Hx; congruence | exact Hall].
    + exists [r], w1. split.
      * apply (@for_of_failure _ _ a rest acc w w1 r He Hs).
      * constructor; [intros _; now apply Herr | constructor].
Qed.

End BatchErrors.

(** X28: the summary the panel builds from the results of a batch is one
    of two texts: "Completed n of n actions. All actions completed
    successfully!" when all n actions of the batch succeeded, or
    "Completed k of k+1 actions." followed by the list of failed actions
    with a single entry, the label and error of the action that stopped
    the batch. *)
Theorem X28_summary_of_a_batch
    {Page : Type} `{Browser Page} (actions : list Action.t) (w : Content.World) :
  exists results w',
    Content.executeActions actions w = (Normal results, w')
    /\ ((length results = length actions
         /\ @Sidepanel.resultMessage results
            = "Completed " ++ ofNat (length actions) ++ " of "
              ++ ofNat (length actions)
              ++ " actions. All actions completed successfully!")
        \/ exists oks r error,
             results = (oks ++ [r])%list
             /\ ActionResult.success r = false
             /\ ActionResult.error r = Some error
             /\ nth_error actions (length oks) = Some (ActionResult.action r)
             /\ @Sidepanel.resultMessage results
                = "Completed " ++ ofNat (length oks) ++ " of "
                  ++ ofNat (length oks + 1)
                  ++ " actions.<br><br>Failed actions:<ul class="
                  ++ dquote ++ "action-list" ++ dquote ++ ">"
                  ++ "<li class=" ++ dquote ++ "action-item error" ++ dquote ++ ">"
                  ++ Sidepanel.label (ActionResult.action r) ++ ": " ++ error
                  ++ "</li></ul>").
Proof.
  destruct (executeActions_stops actions w) as (results & w' & He & Hrun & _).
  destruct (for_of_errors actions [] w) as (results' & w'' & He' & Herrs).
  unfold Content.executeActions in He. rewrite He in He'.
  injection He' as <- _.
  exists results, w'. split; [exact He|].
  destruct (stops_shape Hrun) as [[Hall Hlen] | (oks & r & Hres & Hall & Hf)].
  - left. split; [exact Hlen|]. rewrite <- Hlen.
    unfold Sidepanel.resultMessage.
    assert (Hfilter : filter ActionResult.success results = results).
    { clear -Hall. induction results as [|x xs IH]; [reflexivity|].
      simpl in Hall |- *. apply andb_true_iff in Hall as [Hx Hxs].
      rewrite Hx. now rewrite IH. }
    rewrite Hfilter, Nat.sub_diag. cbn [Nat.ltb Nat.leb].
    now rewrite !append_assoc.
  - right.
    assert (Hin : nth_error results (length oks) = Some r)
      by (rewrite Hres, nth_error_app2, Nat.sub_diag; [reflexivity | lia]).
    assert (Herr : exists error, ActionResult.error r = Some error).
    { rewrite Forall_forall in Herrs. apply Herrs; [|exact Hf].
      rewrite Hres. apply in_or_app. right. now left. }
    destruct Herr as (error & Herr).
    exists oks, r, error. split; [exact Hres|]. split; [exact Hf|].
    split; [exact Herr|]. split; [exact (stops_positional Hrun _ Hin)|].
    unfold Sidepanel.resultMessage. rewrite Hres.
    destruct (filter_success_app oks r Hall Hf) as [-> ->].
    rewrite length_app. cbn [length].
    replace (length oks + 1 - length oks) with 1 by lia.
    cbn [Nat.ltb Nat.leb map String.concat]. rewrite Herr.
    now rewrite !append_assoc.
Qed.

(** ** The pipeline end to end *)

Section PipelineFacts.
Context {Page : Type} `{Browser Page}.
Import Sidepanel.

(** The worker on an ordinary tab whose content script answers the ping. *)
Lemma relay_delivers (c : Background.Chrome) (message : Message)
      (tab : Background.Tab) (id : nat) (u : string) :
  msg_type message = GET_PAGE_CONTEXT \/ msg_type message = EXECUTE_ACTIONS ->
  hd_error (@Background.tabs_query c) = Some tab ->
  Background.tab_id tab = Some (S id) ->
  Background.tab_url tab = Some u ->
  Background.systemPage u = false ->
  @Background.tabs_ping c (S id) = Normal tt ->
  @Background.onMessage c message
  = match @Background.tabs_sendMessage c (S id) message with
    | Background.Delivered response => response
    | Background.LastError m => Some (Background.failure m)
    end.
Proof.
  intros Hty Htab Hid Hurl Hsys Hping.
  assert (Hon : @Background.onMessage c message = @Background.relay c message)
    by (unfold Background.onMessage; destruct Hty as [-> | ->]; reflexivity).
  rewrite Hon. unfold Background.relay. rewrite Htab. cbn [Background.truthyId].
  rewrite Hid, Hurl, Hsys. unfold Background.ensureContentScriptLoaded.
  rewrite Hping. cbn [negb].
  destruct (@Background.tabs_sendMessage c (S id) message); reflexivity.
Qed.

(** X29: a command run through panel, worker and content script on an
    ordinary tab: when the page is observed as [context] and the planner
    answers a plan that is not empty, the panel shows the user's command,
    the announcement of the plan and the summary of exactly the results
    that [executeActions] of the content script produces for that plan on
    the page, and sends the worker one request of each kind. *)
Theorem X29_command_end_to_end
    (c : Background.Chrome) (clock : nat -> nat) (s : Panel) (client : AIClient)
    (tab : Background.Tab) (id : nat) (u : string)
    (observed acted : Content.World)
    (context : PageContext.t) (actions : list Action.t) :
  hd_error (@Background.tabs_query c) = Some tab ->
  Background.tab_id tab = Some (S id) ->
  Background.tab_url tab = Some u ->
  Background.systemPage u = false ->
  @Background.tabs_ping c (S id) = Normal tt ->
  (forall m,
      @Background.tabs_sendMessage c (S id) m
      = Wired.listen (match msg_type m with
                      | EXECUTE_ACTIONS => acted
                      | _ => observed
                      end) m) ->
  Content.extractPageContext (Content.page observed) = Normal context ->
  aiClient s = Some client ->
  trim (commandInput_value s) <> "" ->
  client (withScreenshot context (@capturedScreenshot (Wired.extension c clock)))
         (trim (commandInput_value s)) = Normal actions ->
  actions <> [] ->
  let command := trim (commandInput_value s) in
  let s' := snd (@handleSendCommand (Wired.extension c clock) s) in
  exists results acted',
    Content.executeActions actions acted = (Normal results, acted')
    /\ chatMessages s'
       = (chatMessages s
          ++ [(user, command);
              (assistant,
               ("I will perform these actions:<br>"
                ++ join "<br>"
                     (mapi (fun a i => ofNat (i + 1) ++ ". " ++ label a) actions))%string);
              (assistant, resultMessage results)])%list
    /\ sent s'
       = (sent s ++ [mkMessage GET_PAGE_CONTEXT None;
                    mkMessage CAPTURE_SCREENSHOT None;
                    mkMessage EXECUTE_ACTIONS (Some actions)])%list.
Proof.
  intros Htab Hid Hurl Hsys Hping Hlisten Hobs Hclient Hcmd Hplan Hne command s'.
  destruct (executeActions_stops actions acted) as (results & acted' & Hrun & _).
  exists results, acted'. split; [exact Hrun|].
  assert (Hget : @runtime_sendMessage (Wired.extension c clock)
                   (mkMessage GET_PAGE_CONTEXT None)
                 = Normal (mkResponse true None (Some context) None None)).
  { cbn [runtime_sendMessage Wired.extension].
    rewrite (@relay_delivers c (mkMessage GET_PAGE_CONTEXT None) tab id u
               (or_introl eq_refl) Htab Hid Hurl Hsys Hping).
    rewrite Hlisten. cbn [msg_type]. unfold Wired.listen, ContentListener.onMessage.
    cbn [msg_type]. unfold bind, Content.query, ret. rewrite Hobs. reflexivity. }
  assert (Hexec : @runtime_sendMessage (Wired.extension c clock)
                    (mkMessage EXECUTE_ACTIONS (Some actions))
                  = Normal (mkResponse true None None None (Some results))).
  { cbn [runtime_sendMessage Wired.extension].
    rewrite (@relay_delivers c (mkMessage EXECUTE_ACTIONS (Some actions)) tab id u
               (or_intror eq_refl) Htab Hid Hurl Hsys Hping).
    rewrite Hlisten. cbn [msg_type]. unfold Wired.listen, ContentListener.onMessage.
    cbn [msg_type msg_data]. unfold bind, ret. rewrite Hrun. reflexivity. }
  destruct (@handler_runs_plan (Wired.extension c clock) s client
              (mkResponse true None (Some context) None None)
              (mkResponse true None None None (Some results))
              context actions results
              Hclient Hcmd Hget eq_refl eq_refl Hplan Hne Hexec eq_refl eq_refl)
    as (Hchat & Hsent & _).
  split; [exact Hchat | exact Hsent].
Qed.

End PipelineFacts.

(** Scenario B of the specification through the whole pipeline. *)
Lemma X29_witness :
  let a := Action.make "fill" "#missing" (Some "x") (Some "Fill the missing field") in
  let c := SimpleChrome.chrome SimpleChrome.tab in
  let E := Wired.extension c (fun n => n) in
  let s := ScriptedExtension.panel (ScriptedExtension.planner (Normal [a])) "fill it" in
  Sidepanel.chatMessages (snd (@Sidepanel.handleSendCommand E s))
  = [(Sidepanel.user, "fill it");
     (Sidepanel.assistant, "I will perform these actions:<br>1. Fill the missing field");
     (Sidepanel.assistant,
      "Completed 0 of 1 actions.<br><br>Failed actions:<ul class="
      ++ dquote ++ "action-list" ++ dquote ++ "><li class="
      ++ dquote ++ "action-item error" ++ dquote
      ++ ">Fill the missing field: Element not found: #missing</li></ul>")].
Proof.
  intros a c E s.
  assert (Hsys : Background.systemPage "https://example.test/form" = false)
    by reflexivity.
  assert (Hcmd : trim (Sidepanel.commandInput_value s) <> "") by discriminate.
  assert (Hne : [a] <> []) by discriminate.
  assert (Hlisten : forall m,
             @Background.tabs_sendMessage c 7 m
             = Wired.listen (match Sidepanel.msg_type m with
                             | Sidepanel.EXECUTE_ACTIONS => SimplePage.world SimplePage.sample
                             | _ => SimplePage.world SimplePage.sample
                             end) m)
    by (intros [[] d]; reflexivity).
  destruct (@X29_command_end_to_end _ SimplePage.browser c (fun n => n) s
              (ScriptedExtension.planner (Normal [a]))
              SimpleChrome.tab 6 "https://example.test/form"
              (SimplePage.world SimplePage.sample) (SimplePage.world SimplePage.sample)
              (PageContext.make "https://example.test/form" "Form" [] None) [a]
              eq_refl eq_refl eq_refl Hsys eq_refl Hlisten eq_refl
              eq_refl Hcmd eq_refl Hne)
    as (results & acted' & Hrun & Hchat & _).
  injection Hrun as <- _.
  exact Hchat.
Defined.
